(** * Conversation state synchronisation of the airline customer-service UI

    A shallow embedding of the client code of the demo:

    - [ui/lib/api.ts]: the three transport helpers ([callChatAPI],
      [getCustomerInfo], [getBookingInfo]);
    - [ui/app/page.tsx]: the [Home] component, its eleven state slices and
      its two handlers [handleLogin] and [handleSendMessage];
    - the [CustomerLogin] component and its [handleLogin].

    The values that travel through the handlers are untyped JSON ([any] in
    the source), so they are modelled by a type of JavaScript values with the
    language's truthiness, [||], [??], property access and object spread.
    The handlers are written in a small monad that threads the outside world
    (clock, random source, network, console) and the queue of React state
    updates, and that can stop with a thrown exception. *)

From Stdlib Require Import ZArith List String Ascii Bool Lia.
From Stdlib Require Import DecimalString DecimalZ.
Import ListNotations.

Local Open Scope string_scope.
Local Open Scope list_scope.

(* ================================================================= *)
(** ** JavaScript values *)

Module Js.

(** A value obtained from [JSON.parse], or built by the handlers.  Numbers
    are the integer-valued ones (clock readings, HTTP statuses); an object is
    the list of its own properties in insertion order. *)
#[warnings="-register-all"]
Inductive JsValue : Type :=
| JUndefined
| JNull
| JBool (b : bool)
| JNum (n : Z)
| JStr (s : string)
| JArr (items : list JsValue)
| JObj (props : list (string * JsValue)).

(** [Number.prototype.toString] on an integer: its decimal digits. *)
Definition string_of_Z (n : Z) : string :=
  NilZero.string_of_int (Z.to_int n).

(** [ToBoolean]: [undefined], [null], [false], [0] and [""] are falsy,
    every array and every object (also the empty ones) is truthy. *)
Definition truthy (v : JsValue) : bool :=
  match v with
  | JUndefined | JNull => false
  | JBool b => b
  | JNum n => negb (n =? 0)%Z
  | JStr s => negb (s =? "")
  | JArr _ | JObj _ => true
  end.

Definition nullish (v : JsValue) : bool :=
  match v with
  | JUndefined | JNull => true
  | _ => false
  end.

(** [a || b] and [a ?? b] on values whose right operand has no effect. *)
Definition js_or (a b : JsValue) : JsValue := if truthy a then a else b.
Definition js_coalesce (a b : JsValue) : JsValue := if nullish a then b else a.

Definition isArray (v : JsValue) : bool :=
  match v with JArr _ => true | _ => false end.

Fixpoint lookup (k : string) (ps : list (string * JsValue)) : JsValue :=
  match ps with
  | [] => JUndefined
  | (k', v) :: rest => if k =? k' then v else lookup k rest
  end.

(** [v.k] for a [v] that is neither [undefined] nor [null]: the own property
    of an object, [undefined] on anything else.  It is used with the property
    names of the source only ([conversation_id], [current_agent], [context],
    [events], [agents], [guardrails], [messages], [timestamp], [content],
    [agent], [customer], [name]), none of which is a property of a string,
    number, boolean or array. *)
Definition prop (k : string) (v : JsValue) : JsValue :=
  match v with
  | JObj ps => lookup k ps
  | _ => JUndefined
  end.

(** The property list after the assignment [o.k = v] (also the effect of a
    later [k: v] in an object literal): an existing property keeps its place
    and takes the new value, a new one goes last. *)
Fixpoint set_prop (k : string) (v : JsValue) (ps : list (string * JsValue))
  : list (string * JsValue) :=
  match ps with
  | [] => [(k, v)]
  | (k', v') :: rest =>
      if k =? k' then (k, v) :: rest else (k', v') :: set_prop k v rest
  end.

Fixpoint indexed (i : nat) (l : list JsValue) : list (string * JsValue) :=
  match l with
  | [] => []
  | x :: rest => (string_of_Z (Z.of_nat i), x) :: indexed (S i) rest
  end.

Fixpoint chars (s : string) : list JsValue :=
  match s with
  | EmptyString => []
  | String c rest => JStr (String c EmptyString) :: chars rest
  end.

(** The own enumerable properties that [{...v}] copies: those of an object,
    the indexed elements of an array or string, nothing for the rest. *)
Definition spread (v : JsValue) : list (string * JsValue) :=
  match v with
  | JObj ps => ps
  | JArr l => indexed 0 l
  | JStr s => indexed 0 (chars s)
  | _ => []
  end.

(** [ToString] of a value on which it does not throw (see [unprintable]
    below): an object without a [toString] of its own prints through
    [Object.prototype.toString], an array joins the texts of its elements.
    A number prints its digits, as JavaScript does below 10^21; the exponent
    form of larger numbers is not modelled. *)
Fixpoint toString (v : JsValue) : string :=
  match v with
  | JUndefined => "undefined"
  | JNull => "null"
  | JBool true => "true"
  | JBool false => "false"
  | JNum n => string_of_Z n
  | JStr s => s
  | JArr items =>
      let element x :=
        match x with
        | JUndefined | JNull => ""
        | _ => toString x
        end in
      (fix join (l : list JsValue) : string :=
         match l with
         | [] => ""
         | [x] => element x
         | x :: rest => (element x ++ "," ++ join rest)%string
         end) items
  | JObj _ => "[object Object]"
  end.

(** Whether a property list has the own property [k]. *)
Definition has_own (k : string) (ps : list (string * JsValue)) : bool :=
  existsb (fun p => fst p =? k) ps.

(** [ToString] throws a [TypeError] on [v]: an object parsed from JSON
    whose own properties include [toString] has no callable [toString]
    (and [Object.prototype.valueOf] returns the object), and an array throws
    when one of its elements does. *)
Fixpoint unprintable (v : JsValue) : bool :=
  match v with
  | JObj ps => has_own "toString" ps
  | JArr items => existsb unprintable items
  | _ => false
  end.

(** [if (accountNumber)] on an optional string argument. *)
Definition truthy_arg (a : option string) : bool :=
  match a with
  | Some s => negb (s =? "")
  | None => false
  end.

End Js.
Export Js.

(* ================================================================= *)
(** ** The outside world and the handler monad *)

Module Effects.

Inductive JsError : Type :=
| Error (message : string)
| TypeError (message : string)
| SyntaxError (message : string).

Definition error_text (e : JsError) : string :=
  match e with
  | Error m => ("Error: " ++ m)%string
  | TypeError m => ("TypeError: " ++ m)%string
  | SyntaxError m => ("SyntaxError: " ++ m)%string
  end.

Inductive Completion (A : Type) : Type :=
| Normal (a : A)
| Throw (e : JsError).
Arguments Normal {A} a.
Arguments Throw {A} e.

(** What one [fetch] does: the promise rejects (no connection), or it
    resolves to a response with a status and a body; [json] is what
    [res.json()] resolves to, [None] when the body is not JSON and
    [res.json()] rejects. *)
Inductive FetchOutcome : Type :=
| NetworkFailure
| HttpResponse (status : Z) (json : option JsValue).

Inductive Method : Type := GET | POST.

(** A request as handed to [fetch]; [body] is the value given to
    [JSON.stringify]. *)
Record Request : Type := mkRequest {
  method : Method;
  url : string;
  body : option JsValue
}.

(** The environment's answers: the n-th clock reading ([Date.now()] and
    [new Date()]), the n-th [Math.random().toString()], the outcome of the
    n-th [fetch]. *)
Record Oracle : Type := mkOracle {
  clock : nat -> Z;
  random : nat -> string;
  network : nat -> FetchOutcome
}.

(** How much of the oracle has been consumed, what was sent and logged, and
    the state updates ([U]) that the running handler has enqueued. *)
Record World (U : Type) : Type := mkWorld {
  ticks : nat;
  draws : nat;
  calls : nat;
  sent : list Request;
  console : list (string * string);
  queue : list U
}.
Arguments mkWorld {U}.
Arguments ticks {U}.
Arguments draws {U}.
Arguments calls {U}.
Arguments sent {U}.
Arguments console {U}.
Arguments queue {U}.

Definition start {U : Type} : World U := mkWorld 0 0 0 [] [] [].

(** The marks that the primitive effects leave on the world. *)
Definition tick {U} (w : World U) : World U :=
  mkWorld (S (ticks w)) (draws w) (calls w) (sent w) (console w) (queue w).
Definition draw {U} (w : World U) : World U :=
  mkWorld (ticks w) (S (draws w)) (calls w) (sent w) (console w) (queue w).
Definition called {U} (r : Request) (w : World U) : World U :=
  mkWorld (ticks w) (draws w) (S (calls w)) (sent w ++ [r]) (console w)
          (queue w).
Definition logged {U} (entry : string * string) (w : World U) : World U :=
  mkWorld (ticks w) (draws w) (calls w) (sent w) (console w ++ [entry])
          (queue w).
Definition push {U} (u : U) (w : World U) : World U :=
  mkWorld (ticks w) (draws w) (calls w) (sent w) (console w) (queue w ++ [u]).

Section Monad.
Context {U : Type}.

Definition M (A : Type) : Type :=
  Oracle -> World U -> Completion A * World U.

Definition ret {A} (a : A) : M A := fun _ w => (Normal a, w).

Definition bind {A B} (m : M A) (k : A -> M B) : M B :=
  fun o w =>
    match m o w with
    | (Normal a, w') => k a o w'
    | (Throw e, w') => (Throw e, w')
    end.

Definition throw {A} (e : JsError) : M A := fun _ w => (Throw e, w).

(** [try { body } catch (err) { handler err }] *)
Definition try_catch {A} (body : M A) (handler : JsError -> M A) : M A :=
  fun o w =>
    match body o w with
    | (Normal a, w') => (Normal a, w')
    | (Throw e, w') => handler e o w'
    end.

(** [try { body } finally { final }], for a [final] that does not throw. *)
Definition try_finally {A} (body : M A) (final : M unit) : M A :=
  fun o w =>
    match body o w with
    | (c, w') => (c, snd (final o w'))
    end.

(** Awaiting a promise that is already settled. *)
Definition await {A} (p : Completion A) : M A := fun _ w => (p, w).

Definition Date_now : M Z :=
  fun o w => (Normal (clock o (ticks w)), tick w).

(** [new Date()]: the instant, as its clock reading. *)
Definition new_Date : M Z := Date_now.

(** [Math.random().toString()] *)
Definition Math_random_toString : M string :=
  fun o w => (Normal (random o (draws w)), draw w).

(** [await fetch(...)]: the request leaves, and the next outcome of the
    network comes back; a failed connection is a rejection, with a
    [TypeError] whose message is the browser's. *)
Definition fetch (r : Request) : M (Z * option JsValue) :=
  fun o w =>
    match network o (calls w) with
    | NetworkFailure => (Throw (TypeError "Failed to fetch"), called r w)
    | HttpResponse st js => (Normal (st, js), called r w)
    end.

Definition console_error (label detail : string) : M unit :=
  fun _ w => (Normal tt, logged (label, detail) w).

(** A call of a React state setter. *)
Definition enqueue (u : U) : M unit :=
  fun _ w => (Normal tt, push u w).

(** [v.k]: a [TypeError] on [undefined] and [null]. *)
Definition member (v : JsValue) (k : string) : M JsValue :=
  if nullish v
  then throw (TypeError ("Cannot read properties of " ++ toString v)%string)
  else ret (prop k v).

(** [`${v}`]: the text of [v], or the [TypeError] of [ToString]. *)
Definition template (v : JsValue) : M string :=
  if unprintable v
  then throw (TypeError "Cannot convert object to primitive value")
  else ret (toString v).

Fixpoint mapM {A B} (f : A -> M B) (l : list A) : M (list B) :=
  match l with
  | [] => ret []
  | x :: rest =>
      bind (f x) (fun y => bind (mapM f rest) (fun ys => ret (y :: ys)))
  end.

(** [v.map(f)] for a [v] that is not [undefined] or [null]: only an array
    has a [map]. *)
Definition array_map {B} (v : JsValue) (f : JsValue -> M B) : M (list B) :=
  match v with
  | JArr items => mapM f items
  | _ => throw (TypeError "map is not a function")
  end.

End Monad.
Arguments M : clear implicits.

(** [res.ok]: the status is in the range 200-299. *)
Definition ok (status : Z) : bool := ((200 <=? status) && (status <=? 299))%Z.

(** The promise [res.json()]. *)
Definition json_promise (js : option JsValue) : Completion JsValue :=
  match js with
  | Some v => Normal v
  | None => Throw (SyntaxError "Unexpected token in JSON")
  end.

Declare Scope js_scope.
Delimit Scope js_scope with js.
Notation "x <- m ;; k" := (bind m (fun x => k))
  (at level 100, m at next level, right associativity) : js_scope.
Notation "m ;; k" := (bind m (fun _ => k))
  (at level 100, right associativity) : js_scope.

End Effects.
Export Effects.

(* ================================================================= *)
(** ** [ui/lib/api.ts]: the transport helpers *)

Module Api.
Section Api.
Context {U : Type}.
Local Open Scope js_scope.

(** The value of an optional string argument inside the function. *)
Definition arg_value (a : option string) : JsValue :=
  match a with
  | Some s => JStr s
  | None => JUndefined
  end.

(** The object [body] of [callChatAPI] when it is serialised: the two
    fixed properties, and [account_number] under [if (accountNumber)]. *)
Definition chat_body (message : string) (conversationId : JsValue)
           (accountNumber : option string) : list (string * JsValue) :=
  let body := [("conversation_id", conversationId);
               ("message", JStr message)] in
  if truthy_arg accountNumber
  then set_prop "account_number" (arg_value accountNumber) body
  else body.

(** [callChatAPI]: the [try] block awaits [fetch] and throws on a status
    that is not ok, both of which the [catch] turns into a logged [null];
    [return res.json()] hands the promise of the body back without
    awaiting it, so that promise settles the call after the [try] has been
    left. *)
Definition callChatAPI (message : string) (conversationId : JsValue)
           (accountNumber : option string) : M U JsValue :=
  p <- try_catch
         (res <- fetch (mkRequest POST "/chat"
                          (Some (JObj (chat_body message conversationId
                                                 accountNumber))));;
          if negb (ok (fst res))
          then throw (Error ("Chat API error: " ++ string_of_Z (fst res))%string)
          else ret (json_promise (snd res)))
         (fun err =>
            console_error "Error sending message:" (error_text err);;
            ret (Normal JNull));;
  await p.

Definition getCustomerInfo (accountNumber : string) : M U JsValue :=
  p <- try_catch
         (res <- fetch (mkRequest GET ("/customer/" ++ accountNumber)%string
                                  None);;
          if negb (ok (fst res))
          then throw (Error ("Customer API error: "
                               ++ string_of_Z (fst res))%string)
          else ret (json_promise (snd res)))
         (fun err =>
            console_error "Error fetching customer info:" (error_text err);;
            ret (Normal JNull));;
  await p.

Definition getBookingInfo (confirmationNumber : string) : M U JsValue :=
  p <- try_catch
         (res <- fetch (mkRequest GET
                          ("/booking/" ++ confirmationNumber)%string None);;
          if negb (ok (fst res))
          then throw (Error ("Booking API error: "
                               ++ string_of_Z (fst res))%string)
          else ret (json_promise (snd res)))
         (fun err =>
            console_error "Error fetching booking info:" (error_text err);;
            ret (Normal JNull));;
  await p.

End Api.
End Api.

(* ================================================================= *)
(** ** [ui/app/page.tsx]: the [Home] component *)

Module Home.

Inductive Role : Type := User | Assistant.

(** A transcript entry; [agent] is [None] when the object literal has no
    [agent] property (the user's messages). *)
Record Message : Type := mkMessage {
  id : string;
  content : JsValue;
  role : Role;
  agent : option JsValue;
  timestamp : Z
}.

(** The [useState] slices of the component. *)
Record State : Type := mkState {
  messages : list Message;
  events : list JsValue;
  agents : JsValue;
  currentAgent : JsValue;
  guardrails : JsValue;
  context : JsValue;
  conversationId : JsValue;
  isLoading : bool;
  isLoggedIn : bool;
  customerInfo : JsValue;
  accountNumber : string
}.

Definition initial : State :=
  mkState [] [] (JArr []) (JStr "") (JArr []) (JObj []) JNull
          false false JNull "".

(** The calls of the state setters.  [AppendMessages l] is
    [setMessages((prev) => [...prev, ...l])] and [AppendEvents l] is
    [setEvents((prev) => [...prev, ...l])]; the others set a value. *)
Inductive Update : Type :=
| SetMessages (l : list Message)
| AppendMessages (l : list Message)
| SetEvents (l : list JsValue)
| AppendEvents (l : list JsValue)
| SetAgents (v : JsValue)
| SetCurrentAgent (v : JsValue)
| SetGuardrails (v : JsValue)
| SetContext (v : JsValue)
| SetConversationId (v : JsValue)
| SetIsLoading (b : bool)
| SetIsLoggedIn (b : bool)
| SetCustomerInfo (v : JsValue)
| SetAccountNumber (s : string).

Definition apply (u : Update) (s : State) : State :=
  let '(ms, es, ags, cur) :=
    (messages s, events s, agents s, currentAgent s) in
  let '(gs, ctx, cid, ld) :=
    (guardrails s, context s, conversationId s, isLoading s) in
  let '(lg, ci, acc) := (isLoggedIn s, customerInfo s, accountNumber s) in
  match u with
  | SetMessages l => mkState l es ags cur gs ctx cid ld lg ci acc
  | AppendMessages l => mkState (ms ++ l) es ags cur gs ctx cid ld lg ci acc
  | SetEvents l => mkState ms l ags cur gs ctx cid ld lg ci acc
  | AppendEvents l => mkState ms (es ++ l) ags cur gs ctx cid ld lg ci acc
  | SetAgents v => mkState ms es v cur gs ctx cid ld lg ci acc
  | SetCurrentAgent v => mkState ms es ags v gs ctx cid ld lg ci acc
  | SetGuardrails v => mkState ms es ags cur v ctx cid ld lg ci acc
  | SetContext v => mkState ms es ags cur gs v cid ld lg ci acc
  | SetConversationId v => mkState ms es ags cur gs ctx v ld lg ci acc
  | SetIsLoading b => mkState ms es ags cur gs ctx cid b lg ci acc
  | SetIsLoggedIn b => mkState ms es ags cur gs ctx cid ld b ci acc
  | SetCustomerInfo v => mkState ms es ags cur gs ctx cid ld lg v acc
  | SetAccountNumber a => mkState ms es ags cur gs ctx cid ld lg ci a
  end.

(** React applies the enqueued updates in the order of the calls. *)
Definition commit (q : list Update) (s : State) : State :=
  fold_left (fun s u => apply u s) q s.

Local Open Scope js_scope.

(** [(e) => ({ ...e, timestamp: e.timestamp ?? Date.now() })]: the clock is
    read only when [e.timestamp] is [undefined] or [null]. *)
Definition stampEvent (e : JsValue) : M Update JsValue :=
  ts <- member e "timestamp";;
  t <- (if nullish ts then (n <- Date_now;; ret (JNum n)) else ret ts);;
  ret (JObj (set_prop "timestamp" t (spread e))).

(** [(m) => ({ id: Date.now().toString() + Math.random().toString(),
    content: m.content, role: "assistant", agent: m.agent,
    timestamp: new Date() })] *)
Definition assistantMessage (m : JsValue) : M Update Message :=
  t <- Date_now;;
  r <- Math_random_toString;;
  c <- member m "content";;
  a <- member m "agent";;
  d <- new_Date;;
  ret (mkMessage (string_of_Z t ++ r)%string c Assistant (Some a) d).

(** The welcome around the text of the customer's name. *)
Definition welcome_line (text : string) : string :=
  ("Welcome back, " ++ text
   ++ "! I can help you with your bookings, flight status, seat changes, and more. How can I assist you today?")%string.

Definition welcome_text (name : JsValue) : string :=
  welcome_line (toString name).

Definition trouble_text : string :=
  "I'm having trouble connecting right now. Please try again in a moment.".

(** Lines 35-66, the body of [if (data)] in [handleLogin].  The value [data]
    is truthy there, so reading a property of it cannot throw.  The template
    literal of the welcome is evaluated between [Date.now()] and
    [new Date()], and throws when the name has no text. *)
Definition seed (custInfo data : JsValue) : M Update unit :=
  enqueue (SetConversationId (prop "conversation_id" data));;
  enqueue (SetCurrentAgent (prop "current_agent" data));;
  enqueue (SetContext (prop "context" data));;
  initialEvents <- array_map (js_or (prop "events" data) (JArr []))
                             stampEvent;;
  enqueue (SetEvents initialEvents);;
  enqueue (SetAgents (js_or (prop "agents" data) (JArr [])));;
  enqueue (SetGuardrails (js_or (prop "guardrails" data) (JArr [])));;
  (if isArray (prop "messages" data)
   then (l <- array_map (prop "messages" data) assistantMessage;;
         enqueue (SetMessages l))
   else ret tt);;
  t <- Date_now;;
  customer <- member custInfo "customer";;
  name <- member customer "name";;
  text <- template name;;
  d <- new_Date;;
  let welcomeMessage :=
    mkMessage (string_of_Z t) (JStr (welcome_line text)) Assistant
              (Some (JStr "Triage Agent")) d in
  enqueue (SetMessages [welcomeMessage]).

(** [handleLogin(accNumber, custInfo)] *)
Definition handleLogin (accNumber : string) (custInfo : JsValue)
  : M Update unit :=
  enqueue (SetAccountNumber accNumber);;
  enqueue (SetCustomerInfo custInfo);;
  enqueue (SetIsLoggedIn true);;
  data <- Api.callChatAPI "" (JStr "") (Some accNumber);;
  if truthy data then seed custInfo data else ret tt.

(** Lines 85-94, the body of [if (!data)] in [handleSendMessage].  The
    message is built inside the updater given to [setMessages], which React
    runs when it applies the update: its clock readings are the next ones of
    the handler, as here. *)
Definition fallback (content : string) : M Update unit :=
  console_error "Chat API call returned no data for message:" content;;
  t <- Date_now;;
  d <- new_Date;;
  enqueue (AppendMessages
             [mkMessage (string_of_Z t) (JStr trouble_text) Assistant
                        (Some (JStr "System")) d]);;
  enqueue (SetIsLoading false).

(** Lines 97-122 of [handleSendMessage]: a truthy [data] is folded into the
    state; [st] is the state of the render that made the handler. *)
Definition reconcile (st : State) (data : JsValue) : M Update unit :=
  (if negb (truthy (conversationId st))
   then enqueue (SetConversationId (js_or (prop "conversation_id" data) JNull))
   else ret tt);;
  enqueue (SetCurrentAgent (js_or (prop "current_agent" data) (JStr "")));;
  enqueue (SetContext (js_or (prop "context" data) (JObj [])));;
  (if truthy (prop "events" data)
   then (stamped <- array_map (prop "events" data) stampEvent;;
         enqueue (AppendEvents stamped))
   else ret tt);;
  (if truthy (prop "agents" data)
   then enqueue (SetAgents (prop "agents" data))
   else ret tt);;
  (if truthy (prop "guardrails" data)
   then enqueue (SetGuardrails (prop "guardrails" data))
   else ret tt);;
  (if truthy (prop "messages" data)
   then (responses <- array_map (prop "messages" data) assistantMessage;;
         enqueue (AppendMessages responses))
   else ret tt);;
  enqueue (SetIsLoading false).

(** The transport call of a send made from the render of [st]. *)
Definition sendTurn (st : State) (content : string) : M Update JsValue :=
  Api.callChatAPI content (js_coalesce (conversationId st) (JStr ""))
                  (Some (accountNumber st)).

(** [handleSendMessage(content)], created by the render that showed the
    state [st]: [conversationId] and [accountNumber] are the values of that
    render. *)
Definition handleSendMessage (st : State) (content : string)
  : M Update unit :=
  t <- Date_now;;
  d <- new_Date;;
  let userMsg := mkMessage (string_of_Z t) (JStr content) User None d in
  enqueue (AppendMessages [userMsg]);;
  enqueue (SetIsLoading true);;
  data <- sendTurn st content;;
  if negb (truthy data) then fallback content else reconcile st data.

(** The [userMsg] of a send made when the [n]-th clock reading is the next
    one. *)
Definition userMsg (o : Oracle) (n : nat) (content : string) : Message :=
  mkMessage (string_of_Z (clock o n)) (JStr content) User None
            (clock o (S n)).

(** The message of [fallback] when the [n]-th clock reading is the next. *)
Definition systemMsg (o : Oracle) (n : nat) : Message :=
  mkMessage (string_of_Z (clock o n)) (JStr trouble_text) Assistant
            (Some (JStr "System")) (clock o (S n)).

(** The [welcomeMessage] of a login, [k] being the clock reading of its
    [id], for a [custInfo] that has a [customer] whose [name] has a text. *)
Definition welcome (o : Oracle) (k : nat) (custInfo : JsValue) : Message :=
  mkMessage (string_of_Z (clock o k))
            (JStr (welcome_text (prop "name" (prop "customer" custInfo))))
            Assistant (Some (JStr "Triage Agent")) (clock o (S k)).

(** The world between two handlers: nothing is pending. *)
Definition flush (w : World Update) : World Update :=
  mkWorld (ticks w) (draws w) (calls w) (sent w) (console w) [].

(** One handler from start to end (or to its exception): how it completes,
    the world afterwards, and the state once its updates are applied. *)
Definition run (h : M Update unit) (o : Oracle) (w : World Update)
           (st : State) : Completion unit * World Update * State :=
  let r := h o (flush w) in
  (fst r, flush (snd r), commit (queue (snd r)) st).

Definition outcome (r : Completion unit * World Update * State)
  : Completion unit := fst (fst r).
Definition world_of (r : Completion unit * World Update * State)
  : World Update := snd (fst r).
Definition state_of (r : Completion unit * World Update * State)
  : State := snd r.

(** The user sends the messages of [contents] one after the other, each
    handler being the one of the render that follows the previous send. *)
Fixpoint sendAll (o : Oracle) (contents : list string) (w : World Update)
         (st : State) : World Update * State :=
  match contents with
  | [] => (w, st)
  | c :: rest =>
      let r := run (handleSendMessage st c) o w st in
      sendAll o rest (world_of r) (state_of r)
  end.

(** The shapes of a response that the loops over it can walk: [.map] exists
    on arrays only, and the callbacks read a property of each element, which
    throws on [null] and [undefined]. *)
Definition no_nullish (l : list JsValue) : bool :=
  forallb (fun v => negb (nullish v)) l.

(** [events] is falsy, or an array without [null] elements. *)
Definition events_ok (data : JsValue) : bool :=
  match prop "events" data with
  | JArr es => no_nullish es
  | v => negb (truthy v)
  end.

(** [messages] is falsy, or an array without [null] elements. *)
Definition messages_ok (data : JsValue) : bool :=
  match prop "messages" data with
  | JArr ms => no_nullish ms
  | v => negb (truthy v)
  end.

(** [messages] is not an array, or an array without [null] elements
    ([handleLogin] asks [Array.isArray]). *)
Definition initial_messages_ok (data : JsValue) : bool :=
  match prop "messages" data with
  | JArr ms => no_nullish ms
  | _ => true
  end.

(** The sends of [contents] from [(w, st)] are answered, one by one, by the
    truthy responses [rs], whose events can be walked. *)
Fixpoint answered (o : Oracle) (contents : list string) (rs : list JsValue)
         (w : World Update) (st : State) : Prop :=
  match contents, rs with
  | [], [] => True
  | c :: contents', r :: rs' =>
      fst (sendTurn st c o (flush w)) = Normal r /\
      truthy r = true /\
      events_ok r = true /\
      answered o contents' rs'
               (world_of (run (handleSendMessage st c) o w st))
               (state_of (run (handleSendMessage st c) o w st))
  | _, _ => False
  end.

(** The entries that the loops of the handlers walk. *)
Definition response_events (data : JsValue) : list JsValue :=
  match prop "events" data with
  | JArr es => es
  | _ => []
  end.

Definition response_messages (data : JsValue) : list JsValue :=
  match prop "messages" data with
  | JArr ms => ms
  | _ => []
  end.

(** What the event callback makes of [e] when the [lo]-th clock reading is
    the next one: the properties of [e], with [timestamp] either the one [e]
    came with or, when it came with none, a reading made from then on. *)
Definition stamped (o : Oracle) (lo : nat) (e e' : JsValue) : Prop :=
  exists t,
    e' = JObj (set_prop "timestamp" t (spread e)) /\
    (nullish (prop "timestamp" e) = false -> t = prop "timestamp" e) /\
    (nullish (prop "timestamp" e) = true ->
     exists k, lo <= k /\ t = JNum (clock o k)).

(** The rule of the event timestamps, on the properties of an event [e] of
    a response and of the event [e'] kept for it: a [timestamp] that [e]
    came with is the one of [e']; without one, [e'] has a clock reading made
    from the [lo]-th on; every other property of [e'] is the one of [e]. *)
Definition retains_or_stamps (o : Oracle) (lo : nat) (e e' : JsValue) : Prop :=
  (nullish (prop "timestamp" e) = false ->
   prop "timestamp" e' = prop "timestamp" e) /\
  (nullish (prop "timestamp" e) = true ->
   exists k, lo <= k /\ prop "timestamp" e' = JNum (clock o k)) /\
  (forall key, key <> "timestamp" -> prop key e' = lookup key (spread e)).

(** The slices other than the transcript and the pending flag. *)
Definition besides_transcript (s : State) :=
  (events s, agents s, currentAgent s, guardrails s, context s,
   conversationId s, isLoggedIn s, customerInfo s, accountNumber s).

Definition same_besides_transcript (s s' : State) : Prop :=
  events s' = events s /\ agents s' = agents s /\
  currentAgent s' = currentAgent s /\ guardrails s' = guardrails s /\
  context s' = context s /\ conversationId s' = conversationId s /\
  isLoggedIn s' = isLoggedIn s /\ customerInfo s' = customerInfo s /\
  accountNumber s' = accountNumber s.

(** The updates of a conditional statement. *)
Definition when (b : bool) (l : list Update) : list Update :=
  if b then l else [].

(** An assistant message made from the entry [m] of a response. *)
Definition response_of (o : Oracle) (m : JsValue) (r : Message) : Prop :=
  content r = prop "content" m /\
  agent r = Some (prop "agent" m) /\
  role r = Assistant /\
  exists k j, id r = (string_of_Z (clock o k) ++ random o j)%string.

End Home.

(* ================================================================= *)
(** ** The [CustomerLogin] component *)

Module CustomerLogin.

Record State : Type := mkState {
  accountNumber : string;
  isLoading : bool;
  error : string
}.

Definition initial : State := mkState "" false "".

(** The calls of the component's setters, and [OnLogin a c] for the call
    [onLogin(a, c)] of the callback it was given. *)
Inductive Update : Type :=
| SetAccountNumber (s : string)
| SetIsLoading (b : bool)
| SetError (s : string)
| OnLogin (accountNumber : string) (customerInfo : JsValue).

Definition apply (u : Update) (s : State) : State :=
  match u with
  | SetAccountNumber a => mkState a (isLoading s) (error s)
  | SetIsLoading b => mkState (accountNumber s) b (error s)
  | SetError e => mkState (accountNumber s) (isLoading s) e
  | OnLogin _ _ => s
  end.

Definition commit (q : list Update) (s : State) : State :=
  fold_left (fun s u => apply u s) q s.

(** The calls [onLogin(a, c)] among the enqueued ones. *)
Fixpoint logins (q : list Update) : list (string * JsValue) :=
  match q with
  | [] => []
  | OnLogin a c :: rest => (a, c) :: logins rest
  | _ :: rest => logins rest
  end.

(** Strings are UTF-8 text.  [utf8_chars] cuts a list of bytes into the
    byte sequences of its characters, by the length that the first byte of
    each announces. *)
Fixpoint utf8_chars (l : list ascii) : list (list ascii) :=
  match l with
  | [] => []
  | c :: rest =>
      let n := N_of_ascii c in
      let width : N :=
        if (n <? 192)%N then 1%N
        else if (n <? 224)%N then 2%N
        else if (n <? 240)%N then 3%N
        else if (n <? 248)%N then 4%N
        else 1%N in
      match width, rest with
      | 2%N, c2 :: r2 => [c; c2] :: utf8_chars r2
      | 3%N, c2 :: c3 :: r3 => [c; c2; c3] :: utf8_chars r3
      | 4%N, c2 :: c3 :: c4 :: r4 => [c; c2; c3; c4] :: utf8_chars r4
      | _, _ => [c] :: utf8_chars rest
      end
  end.

Fixpoint same_bytes (g : list ascii) (bytes : list N) : bool :=
  match g, bytes with
  | [], [] => true
  | c :: g', b :: bytes' => (N_of_ascii c =? b)%N && same_bytes g' bytes'
  | _, _ => false
  end.

(** The characters that [String.prototype.trim] removes, each by its UTF-8
    bytes: the white space U+0009, U+000B, U+000C, U+0020, U+00A0, U+1680,
    U+2000 to U+200A, U+202F, U+205F, U+3000 and U+FEFF, and the line
    terminators U+000A, U+000D, U+2028 and U+2029. *)
Definition white_space : list (list N) :=
  [[9]; [10]; [11]; [12]; [13]; [32];
   [194; 160];
   [225; 154; 128];
   [226; 128; 128]; [226; 128; 129]; [226; 128; 130]; [226; 128; 131];
   [226; 128; 132]; [226; 128; 133]; [226; 128; 134]; [226; 128; 135];
   [226; 128; 136]; [226; 128; 137]; [226; 128; 138];
   [226; 128; 168]; [226; 128; 169]; [226; 128; 175];
   [226; 129; 159];
   [227; 128; 128];
   [239; 187; 191]]%N.

Definition is_space (c : list ascii) : bool :=
  existsb (same_bytes c) white_space.

Fixpoint trim_start (l : list (list ascii)) : list (list ascii) :=
  match l with
  | [] => []
  | c :: rest => if is_space c then trim_start rest else l
  end.

(** [s.trim()]: the white space at both ends removed. *)
Definition trim (s : string) : string :=
  string_of_list_ascii
    (List.concat (rev (trim_start (rev (trim_start
                                     (utf8_chars (list_ascii_of_string s))))))).

Definition enter_text : string := "Please enter your account number".
Definition not_found_text : string :=
  "Account number not found. Please check and try again.".
Definition failed_text : string :=
  "Failed to load customer information. Please try again.".
Definition network_text : string :=
  "Network error. Please check your connection and try again.".

Local Open Scope js_scope.

(** [handleLogin] of the render that showed [st].  The [return] inside the
    [try] leaves through [finally], like the other ways out of it. *)
Definition handleLogin (st : State) : M Update unit :=
  if negb (truthy (JStr (trim (accountNumber st)))) then
    enqueue (SetError enter_text)
  else
    enqueue (SetIsLoading true);;
    enqueue (SetError "");;
    try_finally
      (try_catch
         (response <- fetch (mkRequest GET
                               ("/customer/" ++ accountNumber st)%string None);;
          if negb (ok (fst response)) then
            (if (fst response =? 404)%Z
             then enqueue (SetError not_found_text)
             else enqueue (SetError failed_text))
          else
            (customerData <- await (json_promise (snd response));;
             enqueue (OnLogin (accountNumber st) customerData)))
         (fun _ => enqueue (SetError network_text)))
      (enqueue (SetIsLoading false)).

(** The state of the component and the calls of [onLogin] after the handler
    has run against the network of [o]. *)
Definition after (o : Oracle) (st : State) : State * list (string * JsValue) :=
  let q := queue (snd (handleLogin st o start)) in
  (commit q st, logins q).

End CustomerLogin.

(* ================================================================= *)
(** ** The [AgentPanel] component *)

Module AgentPanel.

(** [v !== "s"] for a string literal: only the string [s] itself is equal
    to it. *)
Definition differs_from (v : JsValue) (s : string) : bool :=
  match v with
  | JStr t => negb (t =? s)
  | _ => true
  end.

(** [events.filter((e) => e.type !== "message")]; reading [e.type] throws
    on an element that is [null] or [undefined]. *)
Fixpoint runnerEvents (events : list JsValue) : Completion (list JsValue) :=
  match events with
  | [] => Normal []
  | e :: rest =>
      if nullish e
      then Throw (TypeError ("Cannot read properties of " ++ toString e)%string)
      else match runnerEvents rest with
           | Normal shown =>
               Normal (if differs_from (prop "type" e) "message"
                       then e :: shown else shown)
           | Throw err => Throw err
           end
  end.

End AgentPanel.

(* ================================================================= *)
(** ** The [Home] component without login

    The second [Home] component of the repository: the conversation is
    started by an effect when the component is mounted, and no account
    number is sent.  Its state has the first eight slices of [Home.State];
    the three slices of the login stay as they are. *)

Module HomeNoLogin.
Import Home.
Local Open Scope js_scope.

Definition failed_text : string :=
  "Failed to load chat. Please check backend or API key.".

(** The body of the [useEffect] that boots the conversation, in the
    component mounted with the state [st]. *)
Definition boot (st : State) : M Update unit :=
  data <- Api.callChatAPI "" (js_coalesce (conversationId st) (JStr "")) None;;
  if negb (truthy data) then
    console_error "Initial chat API call returned no data." "";;
    t <- Date_now;;
    d <- new_Date;;
    enqueue (SetMessages
               [mkMessage (string_of_Z t) (JStr failed_text) Assistant
                          (Some (JStr "System")) d])
  else
    enqueue (SetConversationId (js_or (prop "conversation_id" data) JNull));;
    enqueue (SetCurrentAgent (js_or (prop "current_agent" data) (JStr "")));;
    enqueue (SetContext (js_or (prop "context" data) (JObj [])));;
    initialEvents <- array_map (js_or (prop "events" data) (JArr []))
                               stampEvent;;
    enqueue (SetEvents initialEvents);;
    enqueue (SetAgents (js_or (prop "agents" data) (JArr [])));;
    enqueue (SetGuardrails (js_or (prop "guardrails" data) (JArr [])));;
    (if isArray (prop "messages" data)
     then (l <- array_map (prop "messages" data) assistantMessage;;
           enqueue (SetMessages l))
     else ret tt).

End HomeNoLogin.

(* ================================================================= *)
(** ** Notions used by the statements *)

(** A lookup that did not yield a customer: no connection, or a status that
    is not ok; among these, "not found" is the status 404. *)
Definition failure (out : FetchOutcome) : bool :=
  match out with
  | NetworkFailure => true
  | HttpResponse st _ => negb (ok st)
  end.

Definition not_found (out : FetchOutcome) : bool :=
  match out with
  | NetworkFailure => false
  | HttpResponse st _ => (st =? 404)%Z
  end.

(** [f] tells a caller the "not found" outcome apart from every other
    failure: what it yields differs. *)
Definition distinguishes {R : Type} (f : FetchOutcome -> R) : Prop :=
  forall a b,
    not_found a = true -> failure b = true -> not_found b = false ->
    f a <> f b.

(** An oracle whose network always answers with [out]. *)
Definition answering (out : FetchOutcome) : Oracle :=
  mkOracle (fun _ => 0%Z) (fun _ => "") (fun _ => out).

(** The most recent value of the property [k] among the responses [rs] that
    included it (truthy), [prior] when none did. *)
Fixpoint latest (k : string) (rs : list JsValue) (prior : JsValue) : JsValue :=
  match rs with
  | [] => prior
  | r :: rest =>
      latest k rest (if truthy (prop k r) then prop k r else prior)
  end.

Definition omits (k : string) (r : JsValue) : Prop := truthy (prop k r) = false.

(** What a computation of the [Home] component does to the state, seen
    through the updates it adds to the queue: [effect m o w R] when the
    state [s'] after those updates is related by [R] to the state [s] before
    them, whatever [s] is. *)
Definition effect {A : Type} (m : M Home.Update A) (o : Oracle)
           (w : World Home.Update) (R : Home.State -> Home.State -> Prop)
  : Prop :=
  exists extra,
    queue (snd (m o w)) = queue w ++ extra /\
    forall s, R s (Home.commit extra s).

(** [m] leaves the slice [f] as it is, also when it throws on the way. *)
Definition keeps {X A : Type} (f : Home.State -> X) (m : M Home.Update A)
  : Prop :=
  forall o w, effect m o w (fun s s' => f s' = f s).

(** [m] takes every state to one related to it by [R], also when it throws
    on the way. *)
Definition preserves {A : Type} (R : Home.State -> Home.State -> Prop)
           (m : M Home.Update A) : Prop :=
  forall o w, effect m o w R.

(** [m] makes no request. *)
Definition offline {U A : Type} (m : M U A) : Prop :=
  forall o w,
    calls (snd (m o w)) = calls w /\ sent (snd (m o w)) = sent w.

(** The transcript and the event trace of [s'] continue those of [s]. *)
Definition grows (s s' : Home.State) : Prop :=
  (exists l, Home.messages s' = Home.messages s ++ l) /\
  (exists l, Home.events s' = Home.events s ++ l).

(** An event as the handlers keep it: an object whose [timestamp] is
    neither [undefined] nor [null]. *)
Definition well_stamped (e : JsValue) : bool :=
  match e with
  | JObj ps => negb (nullish (lookup "timestamp" ps))
  | _ => false
  end.

(** Every event of the trace of [s] is well stamped; [stamping s s'] when
    [s'] has this property if [s] has it. *)
Definition all_stamped (s : Home.State) : Prop :=
  forallb well_stamped (Home.events s) = true.

Definition stamping (s s' : Home.State) : Prop :=
  all_stamped s -> all_stamped s'.

(** The outcomes of the request for which [callChatAPI] returns a falsy
    value: no connection, a status that is not ok, and an ok status with a
    body that parses to [null], [false], [0] or [""]. *)
Definition no_data (out : FetchOutcome) : bool :=
  match out with
  | NetworkFailure => true
  | HttpResponse status js =>
      if ok status
      then match js with
           | Some v => negb (truthy v)
           | None => false
           end
      else true
  end.

(** A blank account number that is not ASCII: a no-break space (U+00A0),
    an ideographic space (U+3000) and a space. *)
Definition unicode_blank : string :=
  string_of_list_ascii
    (map ascii_of_nat [194; 160; 227; 128; 128; 32]).

(** The events of a response cannot be walked: [events] is truthy and not
    an array, or an array with a [null] or [undefined] element. *)
Definition events_unwalkable (data : JsValue) : bool :=
  negb (Home.events_ok data).

(* ================================================================= *)
(** ** The transport helpers *)

Section Transport.
Context {U : Type}.

(** [callChatAPI] as a function of what the network does next. *)
Lemma callChatAPI_eq message cid acc (o : Oracle) (w : World U) :
  Api.callChatAPI message cid acc o w =
  let w' := called (mkRequest POST "/chat"
                      (Some (JObj (Api.chat_body message cid acc)))) w in
  match network o (calls w) with
  | NetworkFailure =>
      (Normal JNull,
       logged ("Error sending message:", "TypeError: Failed to fetch") w')
  | HttpResponse st js =>
      if ok st then (json_promise js, w')
      else (Normal JNull,
            logged ("Error sending message:",
                    ("Error: Chat API error: " ++ string_of_Z st)%string) w')
  end.
Proof.
  unfold Api.callChatAPI, bind, try_catch, fetch, await.
  destruct (network o (calls w)) as [|st js]; simpl; [reflexivity|].
  destruct (ok st); reflexivity.
Qed.

(** The result of the call depends on the world through the number of
    fetches made so far only. *)
Lemma callChatAPI_result message cid acc (o : Oracle) (w w' : World U) :
  calls w' = calls w ->
  fst (Api.callChatAPI message cid acc o w')
  = fst (Api.callChatAPI message cid acc o w).
Proof.
  intros E. rewrite !callChatAPI_eq, E. simpl.
  destruct (network o (calls w)) as [|st js]; [reflexivity|].
  destruct (ok st); reflexivity.
Qed.

(** A truthy result is the parsed body of an ok response, and the call
    leaves nothing but the request behind. *)
Lemma callChatAPI_truthy message cid acc (o : Oracle) (w : World U) data :
  fst (Api.callChatAPI message cid acc o w) = Normal data ->
  truthy data = true ->
  Api.callChatAPI message cid acc o w =
  (Normal data,
   called (mkRequest POST "/chat"
             (Some (JObj (Api.chat_body message cid acc)))) w).
Proof.
  rewrite callChatAPI_eq. simpl.
  destruct (network o (calls w)) as [|st js]; simpl.
  - intros E T. injection E as <-. discriminate T.
  - destruct (ok st); simpl.
    + intros ->. reflexivity.
    + intros E T. injection E as <-. discriminate T.
Qed.

(** C9. [callChatAPI] (the spec's [sendTurn]) returns [null], without
    throwing, when the request fails at the network level and when the
    chat endpoint answers with a status outside 200-299, and it logs the
    failure; on a status inside 200-299 it returns the parsed body (the
    only way it throws is a body that does not parse). *)
Theorem callChatAPI_null_on_failure message cid acc (o : Oracle)
        (w : World U) :
  let r := Api.callChatAPI message cid acc o w in
  match network o (calls w) with
  | NetworkFailure =>
      fst r = Normal JNull /\
      exists detail,
        console (snd r) = console w ++ [("Error sending message:", detail)]
  | HttpResponse status js =>
      if ok status then
        console (snd r) = console w /\
        match js with
        | Some parsed => fst r = Normal parsed
        | None => exists e, fst r = Throw e
        end
      else
        fst r = Normal JNull /\
        console (snd r) =
        console w ++ [("Error sending message:",
                       ("Error: Chat API error: "
                          ++ string_of_Z status)%string)]
  end.
Proof.
  intros r. subst r. rewrite callChatAPI_eq. simpl.
  destruct (network o (calls w)) as [|st js]; simpl.
  - split; [reflexivity|]. eexists. reflexivity.
  - destruct (ok st); simpl.
    + split; [reflexivity|]. destruct js; simpl; eauto.
    + split; reflexivity.
Qed.


End Transport.

(* ================================================================= *)
(** ** The customer lookup *)

(** What the login form shows after [handleLogin], for an account number
    that is not blank. *)
Lemma login_error_table (o : Oracle) (st : CustomerLogin.State) :
  (CustomerLogin.trim (CustomerLogin.accountNumber st) =? "")%string = false ->
  CustomerLogin.error (fst (CustomerLogin.after o st)) =
  match network o 0 with
  | NetworkFailure => CustomerLogin.network_text
  | HttpResponse status js =>
      if ok status then
        match js with
        | Some _ => ""
        | None => CustomerLogin.network_text
        end
      else if (status =? 404)%Z then CustomerLogin.not_found_text
      else CustomerLogin.failed_text
  end.
Proof.
  intros B. unfold CustomerLogin.after, CustomerLogin.handleLogin.
  unfold truthy. rewrite B. simpl negb. cbv iota.
  unfold bind, try_finally, try_catch, fetch, enqueue, await. simpl.
  destruct (network o 0) as [|status js]; simpl; [reflexivity|].
  destruct (ok status); simpl.
  - destruct js; reflexivity.
  - destruct (status =? 404)%Z; reflexivity.
Qed.

(** C7, on the code: [getCustomerInfo] answers the status 404 as it answers
    the status 500, with [null]. *)
Lemma getCustomerInfo_does_not_distinguish :
  ~ distinguishes
      (fun out => fst (Api.getCustomerInfo (U := unit) "CUST999"
                                           (answering out) start)).
Proof.
  intros D.
  apply (D (HttpResponse 404 None) (HttpResponse 500 None)); reflexivity.
Qed.

(** C7, as the code has it.  The lookup that tells "not found" apart is
    the one [CustomerLogin.handleLogin] makes itself: for an account number
    that is not blank, the error it sets after a 404 differs from the one it
    sets after every other failure, while [getCustomerInfo] of the transport
    helpers returns [null] for each of them. *)
Theorem login_distinguishes_not_found (st : CustomerLogin.State) :
  (CustomerLogin.trim (CustomerLogin.accountNumber st) =? "")%string = false ->
  distinguishes
    (fun out => CustomerLogin.error
                  (fst (CustomerLogin.after (answering out) st))) /\
  (forall status js,
      status = 404%Z ->
      CustomerLogin.after (answering (HttpResponse status js)) st =
      (CustomerLogin.mkState (CustomerLogin.accountNumber st) false
                             CustomerLogin.not_found_text, [])) /\
  (forall out,
      failure out = true ->
      fst (Api.getCustomerInfo (U := unit) (CustomerLogin.accountNumber st)
                               (answering out) start) = Normal JNull).
Proof.
  intros B. split; [|split].
  - intros a b Na Fb Nb. rewrite !login_error_table by exact B.
    destruct a as [|sa ja]; [discriminate Na|].
    destruct b as [|sb jb]; simpl in *.
    + apply Z.eqb_eq in Na. subst sa. discriminate.
    + apply Z.eqb_eq in Na. subst sa. simpl.
      apply negb_true_iff in Fb. rewrite Fb, Nb. discriminate.
  - intros status js ->.
    unfold CustomerLogin.after, CustomerLogin.handleLogin.
    unfold truthy. rewrite B. destruct st; reflexivity.
  - intros out F. unfold Api.getCustomerInfo, bind, try_catch, fetch, await.
    destruct out as [|status js]; simpl in *; [reflexivity|].
    apply negb_true_iff in F. rewrite F. reflexivity.
Qed.

Lemma login_distinguishes_not_found_witness :
  CustomerLogin.error
    (fst (CustomerLogin.after (answering (HttpResponse 404 None))
                              (CustomerLogin.mkState "CUST999" false "")))
  <> CustomerLogin.error
       (fst (CustomerLogin.after (answering (HttpResponse 500 None))
                                 (CustomerLogin.mkState "CUST999" false ""))).
Proof.
  apply (proj1 (login_distinguishes_not_found
                  (CustomerLogin.mkState "CUST999" false "") eq_refl));
    reflexivity.
Defined.

(* ================================================================= *)
(** ** Stepping through a handler *)

Section Steps.
Context {U : Type}.
Implicit Types (o : Oracle) (w : World U).

Lemma bind_normal {A B} (m : M U A) (k : A -> M U B) o w a w' :
  m o w = (Normal a, w') -> bind m k o w = k a o w'.
Proof. unfold bind. intros ->. reflexivity. Qed.

Lemma bind_assoc {A B C} (m : M U A) (k : A -> M U B) (h : B -> M U C) o w :
  bind (bind m k) h o w = bind m (fun a => bind (k a) h) o w.
Proof. unfold bind. destruct (m o w) as [[a|e] w']; reflexivity. Qed.

Lemma bind_ret {A B} (a : A) (k : A -> M U B) o w :
  bind (ret a) k o w = k a o w.
Proof. reflexivity. Qed.

Lemma bind_enqueue {B} (u : U) (k : unit -> M U B) o w :
  bind (enqueue u) k o w = k tt o (push u w).
Proof. reflexivity. Qed.

Lemma bind_Date_now {B} (k : Z -> M U B) o w :
  bind Date_now k o w = k (clock o (ticks w)) o (tick w).
Proof. reflexivity. Qed.

Lemma bind_new_Date {B} (k : Z -> M U B) o w :
  bind new_Date k o w = k (clock o (ticks w)) o (tick w).
Proof. reflexivity. Qed.

Lemma bind_random {B} (k : string -> M U B) o w :
  bind Math_random_toString k o w = k (random o (draws w)) o (draw w).
Proof. reflexivity. Qed.

Lemma bind_console_error {B} l d (k : unit -> M U B) o w :
  bind (console_error l d) k o w = k tt o (logged (l, d) w).
Proof. reflexivity. Qed.

Lemma bind_member {B} v key (k : JsValue -> M U B) o w :
  nullish v = false -> bind (member v key) k o w = k (prop key v) o w.
Proof. unfold member. intros ->. reflexivity. Qed.

Lemma bind_template {B} v (k : string -> M U B) o w :
  unprintable v = false -> bind (template v) k o w = k (toString v) o w.
Proof. unfold template. intros ->. reflexivity. Qed.

End Steps.

Ltac step :=
  first [ rewrite bind_enqueue | rewrite bind_Date_now | rewrite bind_new_Date
        | rewrite bind_random | rewrite bind_console_error | rewrite bind_ret
        | rewrite bind_assoc ];
  cbv beta.

(* ================================================================= *)
(** ** The queue of updates and the slices it leaves alone *)

Section Frame.
Import Home.

Lemma commit_app q1 q2 s : commit (q1 ++ q2) s = commit q2 (commit q1 s).
Proof. unfold commit. apply fold_left_app. Qed.

(** A computation that adds nothing to the queue. *)
Lemma effect_quiet {A} (m : M Update A) o w (R : State -> State -> Prop) :
  queue (snd (m o w)) = queue w -> (forall s, R s s) -> effect m o w R.
Proof.
  intros Q H. exists []. rewrite app_nil_r. split; [exact Q|]. exact H.
Qed.

Lemma effect_enqueue u o w (R : State -> State -> Prop) :
  (forall s, R s (apply u s)) -> effect (enqueue u) o w R.
Proof. intros H. exists [u]. split; [reflexivity|]. exact H. Qed.

(** Sequencing: the second computation runs from the world the first one
    leaves, when the first one completes. *)
Lemma effect_bind {A B} (m : M Update A) (k : A -> M Update B) o w
      (R1 R2 R : State -> State -> Prop) :
  effect m o w R1 ->
  (forall a w', m o w = (Normal a, w') -> effect (k a) o w' R2) ->
  (forall e w', m o w = (Throw e, w') -> forall s s', R1 s s' -> R s s') ->
  (forall s s' s'', R1 s s' -> R2 s' s'' -> R s s'') ->
  effect (bind m k) o w R.
Proof.
  intros (e1 & Q1 & H1) Hk Ht Hc. unfold effect, bind.
  destruct (m o w) as [[a|e] w'] eqn:E; simpl in Q1.
  - destruct (Hk a w' eq_refl) as (e2 & Q2 & H2).
    exists (e1 ++ e2). split.
    + rewrite Q2, Q1, app_assoc. reflexivity.
    + intros s. rewrite commit_app. eapply Hc; [apply H1 | apply H2].
  - exists e1. split; [exact Q1|]. intros s. eapply Ht; eauto.
Qed.

Section Keeps.
Context {X : Type} (f : State -> X).

Lemma keeps_quiet {A} (m : M Update A) :
  (forall o w, queue (snd (m o w)) = queue w) -> keeps f m.
Proof. intros Q o w. apply effect_quiet; auto. Qed.

Lemma keeps_ret {A} (a : A) : keeps f (ret a).
Proof. apply keeps_quiet. reflexivity. Qed.

Lemma keeps_throw {A} e : keeps f (throw (A := A) e).
Proof. apply keeps_quiet. reflexivity. Qed.

Lemma keeps_Date_now : keeps f Date_now.
Proof. apply keeps_quiet. reflexivity. Qed.

Lemma keeps_random : keeps f Math_random_toString.
Proof. apply keeps_quiet. reflexivity. Qed.

Lemma keeps_console_error l d : keeps f (console_error l d).
Proof. apply keeps_quiet. reflexivity. Qed.

Lemma keeps_member v k : keeps f (member v k).
Proof.
  apply keeps_quiet. intros o w. unfold member.
  destruct (nullish v); reflexivity.
Qed.

Lemma keeps_template v : keeps f (template v).
Proof.
  apply keeps_quiet. intros o w. unfold template.
  destruct (unprintable v); reflexivity.
Qed.

Lemma keeps_enqueue u :
  (forall s, f (apply u s) = f s) -> keeps f (enqueue u).
Proof. intros H o w. apply effect_enqueue. exact H. Qed.

Lemma keeps_bind {A B} (m : M Update A) (k : A -> M Update B) :
  keeps f m -> (forall a, keeps f (k a)) -> keeps f (bind m k).
Proof.
  intros Hm Hk o w.
  eapply effect_bind with (R1 := fun s s' => f s' = f s)
                          (R2 := fun s s' => f s' = f s).
  - apply Hm.
  - intros a w' _. apply Hk.
  - auto.
  - intros s s' s'' E1 E2. congruence.
Qed.

Lemma keeps_if {A} (b : bool) (m1 m2 : M Update A) :
  keeps f m1 -> keeps f m2 -> keeps f (if b then m1 else m2).
Proof. destruct b; auto. Qed.

Lemma keeps_mapM {A B} (g : A -> M Update B) l :
  (forall x, keeps f (g x)) -> keeps f (mapM g l).
Proof.
  intros Hg. induction l as [|x l IH]; simpl.
  - apply keeps_ret.
  - apply keeps_bind; [apply Hg|]. intros y.
    apply keeps_bind; [exact IH|]. intros ys. apply keeps_ret.
Qed.

Lemma keeps_array_map {B} v (g : JsValue -> M Update B) :
  (forall x, keeps f (g x)) -> keeps f (array_map v g).
Proof.
  intros Hg. destruct v; simpl; try apply keeps_throw.
  apply keeps_mapM. exact Hg.
Qed.

Lemma keeps_stampEvent e : keeps f (stampEvent e).
Proof.
  unfold stampEvent.
  apply keeps_bind; [apply keeps_member|]. intros ts.
  apply keeps_bind; [|intros t; apply keeps_ret].
  apply keeps_if; [|apply keeps_ret].
  apply keeps_bind; [apply keeps_Date_now|]. intros n. apply keeps_ret.
Qed.

Lemma keeps_assistantMessage m : keeps f (assistantMessage m).
Proof.
  unfold assistantMessage.
  apply keeps_bind; [apply keeps_Date_now|]. intros t.
  apply keeps_bind; [apply keeps_random|]. intros r.
  apply keeps_bind; [apply keeps_member|]. intros c.
  apply keeps_bind; [apply keeps_member|]. intros a.
  apply keeps_bind; [apply keeps_Date_now|]. intros d.
  apply keeps_ret.
Qed.

End Keeps.

(** The use of [keeps]: after the updates of [m] the slice is what the
    updates before [m] made it. *)
Lemma keeps_commit {X A} (f : State -> X) (m : M Update A) o w s :
  keeps f m ->
  f (commit (queue (snd (m o w))) s) = f (commit (queue w) s).
Proof.
  intros K. destruct (K o w) as (extra & Q & H).
  rewrite Q, commit_app. apply H.
Qed.

End Frame.

Ltac keeps_step :=
  first [ apply keeps_ret | apply keeps_throw | apply keeps_Date_now
        | apply keeps_random | apply keeps_console_error | apply keeps_member
        | apply keeps_template
        | apply keeps_stampEvent | apply keeps_assistantMessage
        | apply keeps_array_map; intros ?
        | apply keeps_if
        | apply keeps_bind; [|intros ?]
        | apply keeps_enqueue; intros ?; reflexivity ].
Ltac keeps_auto := repeat keeps_step.

(* ================================================================= *)
(** ** The loops over a response *)

Section Loops.
Import Home.
Implicit Types (o : Oracle) (w : World Update).

Lemma stamped_weaken o lo lo' e e' :
  lo' <= lo -> stamped o lo e e' -> stamped o lo' e e'.
Proof.
  intros L (t & E & Keep & Stamp). exists t. split; [exact E|].
  split; [exact Keep|]. intros N.
  destruct (Stamp N) as (k & B & T). exists k. split; [lia|exact T].
Qed.

Lemma stampEvent_ok e o w :
  nullish e = false ->
  exists e' w',
    stampEvent e o w = (Normal e', w') /\
    queue w' = queue w /\
    ticks w <= ticks w' /\
    stamped o (ticks w) e e'.
Proof.
  intros N. unfold stampEvent. rewrite bind_member by exact N.
  destruct (nullish (prop "timestamp" e)) eqn:T.
  - exists (JObj (set_prop "timestamp" (JNum (clock o (ticks w))) (spread e))),
           (tick w).
    split; [reflexivity|]. split; [reflexivity|]. split; [simpl; lia|].
    eexists. split; [reflexivity|]. split; [congruence|].
    intros _. exists (ticks w). split; [lia|reflexivity].
  - exists (JObj (set_prop "timestamp" (prop "timestamp" e) (spread e))), w.
    split; [reflexivity|]. split; [reflexivity|]. split; [lia|].
    eexists. split; [reflexivity|]. split; [reflexivity|]. congruence.
Qed.

(** The event callback runs over an array without [null] elements to its
    end, and adds nothing to the queue. *)
Lemma mapM_stampEvent es :
  forall o w,
    no_nullish es = true ->
    exists l w',
      mapM stampEvent es o w = (Normal l, w') /\
      queue w' = queue w /\
      ticks w <= ticks w' /\
      Forall2 (stamped o (ticks w)) es l.
Proof.
  induction es as [|e es IH]; intros o w N.
  - exists [], w. repeat split; auto.
  - simpl in N. apply andb_true_iff in N. destruct N as [Ne Nes].
    apply negb_true_iff in Ne.
    destruct (stampEvent_ok e o w Ne) as (e' & w1 & E1 & Q1 & T1 & S1).
    destruct (IH o w1 Nes) as (l & w2 & E2 & Q2 & T2 & S2).
    exists (e' :: l), w2. split.
    + simpl. rewrite (bind_normal _ _ _ _ _ _ E1).
      rewrite (bind_normal _ _ _ _ _ _ E2). reflexivity.
    + split; [congruence|]. split; [lia|].
      constructor; [exact S1|].
      eapply Forall2_impl; [|exact S2].
      intros a b. apply stamped_weaken; lia.
Qed.

Lemma assistantMessage_ok m o w :
  nullish m = false ->
  exists r w',
    assistantMessage m o w = (Normal r, w') /\
    queue w' = queue w /\
    response_of o m r.
Proof.
  intros N. unfold assistantMessage.
  rewrite bind_Date_now, bind_random. cbv beta.
  rewrite !bind_member by exact N. rewrite bind_new_Date.
  eexists. eexists. split; [reflexivity|]. split; [reflexivity|].
  repeat split; simpl; eauto.
Qed.

(** The message callback runs over an array without [null] elements to
    its end, and adds nothing to the queue. *)
Lemma mapM_assistantMessage ms :
  forall o w,
    no_nullish ms = true ->
    exists l w',
      mapM assistantMessage ms o w = (Normal l, w') /\
      queue w' = queue w /\
      Forall2 (response_of o) ms l.
Proof.
  induction ms as [|m ms IH]; intros o w N.
  - exists [], w. repeat split; auto.
  - simpl in N. apply andb_true_iff in N. destruct N as [Nm Nms].
    apply negb_true_iff in Nm.
    destruct (assistantMessage_ok m o w Nm) as (r & w1 & E1 & Q1 & R1).
    destruct (IH o w1 Nms) as (l & w2 & E2 & Q2 & R2).
    exists (r :: l), w2. split.
    + simpl. rewrite (bind_normal _ _ _ _ _ _ E1).
      rewrite (bind_normal _ _ _ _ _ _ E2). reflexivity.
    + split; [congruence|]. constructor; assumption.
Qed.

End Loops.

(* ================================================================= *)
(** ** The message dispatch loop *)

Section Dispatch.
Import Home.
Implicit Types (o : Oracle) (w : World Update) (st : State).

(** The handler up to the answer of the transport. *)
Lemma handleSendMessage_answer st content o w data :
  fst (sendTurn st content o (flush w)) = Normal data ->
  exists w',
    handleSendMessage st content o (flush w) =
    (if negb (truthy data) then fallback content else reconcile st data)
      o w' /\
    queue w' = [AppendMessages [userMsg o (ticks w) content];
                SetIsLoading true] /\
    ticks w' = S (S (ticks w)).
Proof.
  intros H. unfold handleSendMessage.
  rewrite bind_Date_now. cbv beta. rewrite bind_new_Date. cbv beta zeta.
  rewrite !bind_enqueue.
  match goal with
  | |- context [bind (sendTurn st content) _ o ?w2] =>
      pose proof (callChatAPI_result content
                    (js_coalesce (conversationId st) (JStr ""))
                    (Some (accountNumber st)) o (flush w) w2 eq_refl) as R;
      pose proof (callChatAPI_eq content
                    (js_coalesce (conversationId st) (JStr ""))
                    (Some (accountNumber st)) o w2) as E
  end.
  fold (sendTurn st content) in R, E. rewrite H in R.
  match goal with
  | |- context [bind (sendTurn st content) _ o ?w2] =>
      destruct (sendTurn st content o w2) as [c w3] eqn:C
  end.
  simpl in R. subst c. exists w3. split.
  - erewrite bind_normal by exact C. reflexivity.
  - simpl in E. destruct (network o (calls w)) as [|status js].
    + injection E as _ ->. split; reflexivity.
    + destruct (ok status); injection E as _ ->; split; reflexivity.
Qed.

End Dispatch.

Section FailedSend.
Import Home.

(** A send whose transport call returns a falsy value. *)
Lemma failed_send_state
      (st : State) (content : string) (o : Oracle) (w : World Update) data :
  fst (sendTurn st content o (flush w)) = Normal data ->
  truthy data = false ->
  let r := run (handleSendMessage st content) o w st in
  outcome r = Normal tt /\
  state_of r =
  mkState (messages st
             ++ [userMsg o (ticks w) content; systemMsg o (2 + ticks w)])
          (events st) (agents st) (currentAgent st) (guardrails st)
          (context st) (conversationId st) false (isLoggedIn st)
          (customerInfo st) (accountNumber st).
Proof.
  intros H F r. subst r.
  destruct (handleSendMessage_answer _ _ _ _ _ H) as (w' & E & Q & T).
  unfold run, outcome, state_of. cbn [fst snd]. rewrite E, F.
  cbn [negb]. unfold fallback.
  rewrite bind_console_error, bind_Date_now. cbv beta.
  rewrite bind_new_Date. cbv beta. rewrite bind_enqueue.
  unfold enqueue. cbn [fst snd queue push tick logged ticks].
  rewrite Q, T. split; [reflexivity|].
  destruct st. cbn. rewrite <- app_assoc. reflexivity.
Qed.

(** C1. A send whose transport call returns [null] ends normally with the
    user's message and then exactly one more message in the transcript,
    the assistant message of the agent "System" with the fixed apology;
    the pending flag is cleared and every other slice (conversation id,
    current agent, context, events, roster, guardrails, login data) is
    what it was. *)
Theorem failed_send_appends_system_message
        (st : State) (content : string) (o : Oracle) (w : World Update) :
  fst (sendTurn st content o (flush w)) = Normal JNull ->
  let r := run (handleSendMessage st content) o w st in
  outcome r = Normal tt /\
  state_of r =
  mkState (messages st
             ++ [userMsg o (ticks w) content;
                 mkMessage (string_of_Z (clock o (2 + ticks w)))
                           (JStr trouble_text) Assistant
                           (Some (JStr "System"))
                           (clock o (3 + ticks w))])
          (events st) (agents st) (currentAgent st) (guardrails st)
          (context st) (conversationId st) false (isLoggedIn st)
          (customerInfo st) (accountNumber st).
Proof.
  intros H. exact (failed_send_state st content o w JNull H eq_refl).
Qed.

Lemma failed_send_appends_system_message_witness :
  messages
    (state_of (run (handleSendMessage initial "Change my seat")
                   (answering NetworkFailure) start initial))
  = [userMsg (answering NetworkFailure) 0 "Change my seat";
     mkMessage "0" (JStr trouble_text) Assistant (Some (JStr "System")) 0].
Proof.
  exact (f_equal messages
           (proj2 (failed_send_appends_system_message
                     initial "Change my seat" (answering NetworkFailure)
                     start eq_refl))).
Defined.

End FailedSend.

(* ================================================================= *)
(** ** The statements of the handlers, one by one *)

Section Stages.
Import Home.
Implicit Types (o : Oracle) (w : World Update) (data : JsValue).
Local Open Scope js_scope.

Lemma bind_if_enqueue {B} (b : bool) u (k : unit -> M Update B) o w :
  bind (if b then enqueue u else ret tt) k o w
  = k tt o (if b then push u w else w).
Proof. destruct b; reflexivity. Qed.

Lemma queue_if_push (b : bool) u w :
  queue (if b then push u w else w) = queue w ++ when b [u].
Proof. destruct b; simpl; [reflexivity|]. rewrite app_nil_r. reflexivity. Qed.

Lemma ticks_if_push (b : bool) u w :
  ticks (if b then push u w else w) = ticks w.
Proof. destruct b; reflexivity. Qed.

(** [if (data.events) { ... setEvents((prev) => [...prev, ...stamped]) }] *)
Lemma events_stage {B} data (k : unit -> M Update B) o w :
  events_ok data = true ->
  exists evs w',
    Forall2 (stamped o (ticks w)) (response_events data) evs /\
    bind (if truthy (prop "events" data)
          then (stamped <- array_map (prop "events" data) stampEvent;;
                enqueue (AppendEvents stamped))
          else ret tt) k o w = k tt o w' /\
    queue w' = queue w ++ when (truthy (prop "events" data))
                               [AppendEvents evs] /\
    ticks w <= ticks w'.
Proof.
  unfold events_ok, response_events. intros H.
  destruct (prop "events" data) as [| |b|n|s|es|ps];
    try (apply negb_true_iff in H; rewrite H; exists [], w;
         split; [constructor|]; split; [reflexivity|];
         split; [simpl; rewrite app_nil_r; reflexivity | lia]).
  destruct (mapM_stampEvent es o w H) as (l & w' & E & Q & T & F).
  exists l, (push (AppendEvents l) w'). split; [exact F|].
  cbn [truthy array_map]. split.
  - rewrite bind_assoc. rewrite (bind_normal _ _ _ _ _ _ E).
    rewrite bind_enqueue. reflexivity.
  - simpl. rewrite Q. split; [reflexivity|exact T].
Qed.

(** [(data.events || []).map(...)] *)
Lemma initial_events_stage {B} data (k : list JsValue -> M Update B) o w :
  events_ok data = true ->
  exists evs w',
    Forall2 (stamped o (ticks w)) (response_events data) evs /\
    bind (array_map (js_or (prop "events" data) (JArr [])) stampEvent) k o w
    = k evs o w' /\
    queue w' = queue w /\
    ticks w <= ticks w'.
Proof.
  unfold events_ok, response_events, js_or. intros H.
  destruct (prop "events" data) as [| |b|n|s|es|ps];
    try (apply negb_true_iff in H; rewrite H; exists [], w;
         split; [constructor|]; split; [reflexivity|];
         split; [reflexivity | lia]).
  destruct (mapM_stampEvent es o w H) as (l & w' & E & Q & T & F).
  exists l, w'. split; [exact F|]. cbn [truthy array_map]. split.
  - rewrite (bind_normal _ _ _ _ _ _ E). reflexivity.
  - split; [exact Q|exact T].
Qed.

(** [if (data.messages) { ... setMessages((prev) => [...prev, ...responses]) }] *)
Lemma messages_stage {B} data (k : unit -> M Update B) o w :
  messages_ok data = true ->
  exists msgs w',
    Forall2 (response_of o) (response_messages data) msgs /\
    bind (if truthy (prop "messages" data)
          then (responses <- array_map (prop "messages" data)
                                       assistantMessage;;
                enqueue (AppendMessages responses))
          else ret tt) k o w = k tt o w' /\
    queue w' = queue w ++ when (truthy (prop "messages" data))
                               [AppendMessages msgs].
Proof.
  unfold messages_ok, response_messages. intros H.
  destruct (prop "messages" data) as [| |b|n|s|ms|ps];
    try (apply negb_true_iff in H; rewrite H; exists [], w;
         split; [constructor|]; split; [reflexivity|];
         simpl; rewrite app_nil_r; reflexivity).
  destruct (mapM_assistantMessage ms o w H) as (l & w' & E & Q & F).
  exists l, (push (AppendMessages l) w'). split; [exact F|].
  cbn [truthy array_map]. split.
  - rewrite bind_assoc. rewrite (bind_normal _ _ _ _ _ _ E).
    rewrite bind_enqueue. reflexivity.
  - simpl. rewrite Q. reflexivity.
Qed.

(** [if (Array.isArray(data.messages)) { setMessages(data.messages.map(...)) }] *)
Lemma initial_messages_stage {B} data (k : unit -> M Update B) o w :
  initial_messages_ok data = true ->
  exists msgs w',
    Forall2 (response_of o) (response_messages data) msgs /\
    bind (if isArray (prop "messages" data)
          then (l <- array_map (prop "messages" data) assistantMessage;;
                enqueue (SetMessages l))
          else ret tt) k o w = k tt o w' /\
    queue w' = queue w ++ when (isArray (prop "messages" data))
                               [SetMessages msgs].
Proof.
  unfold initial_messages_ok, response_messages. intros H.
  destruct (prop "messages" data) as [| |b|n|s|ms|ps];
    try (exists [], w; split; [constructor|]; split; [reflexivity|];
         simpl; rewrite app_nil_r; reflexivity).
  destruct (mapM_assistantMessage ms o w H) as (l & w' & E & Q & F).
  exists l, (push (SetMessages l) w'). split; [exact F|].
  cbn [isArray array_map]. split.
  - rewrite bind_assoc. rewrite (bind_normal _ _ _ _ _ _ E).
    rewrite bind_enqueue. reflexivity.
  - simpl. rewrite Q. reflexivity.
Qed.

End Stages.

Section Reconcile.
Import Home.
Implicit Types (o : Oracle) (w : World Update) (st s : State).

(** The end of [reconcile], from the loop over the messages on, touches
    the transcript and the pending flag only. *)
Lemma reconcile_end_keeps data :
  keeps besides_transcript
        (bind (if truthy (prop "messages" data)
               then bind (array_map (prop "messages" data) assistantMessage)
                         (fun responses => enqueue (AppendMessages responses))
               else ret tt)
              (fun _ => enqueue (SetIsLoading false))).
Proof. keeps_auto. Qed.

(** The current agent and the context are set before anything in
    [reconcile] can throw, and nothing after touches them. *)
Lemma reconcile_agent_and_context st data o w s :
  let s' := commit (queue (snd (reconcile st data o w))) s in
  currentAgent s' = js_or (prop "current_agent" data) (JStr "") /\
  context s' = js_or (prop "context" data) (JObj []).
Proof.
  intros s'. subst s'. unfold reconcile.
  rewrite bind_if_enqueue. rewrite !bind_enqueue.
  split.
  - rewrite (keeps_commit currentAgent) by keeps_auto.
    cbn [queue push]. rewrite !commit_app. reflexivity.
  - rewrite (keeps_commit context) by keeps_auto.
    cbn [queue push]. rewrite !commit_app. reflexivity.
Qed.

(** The updates of [reconcile] for a response whose events can be walked:
    the conditional ones in the order of the source, then those of its
    end; when the messages can be walked too, it runs to its last
    statement. *)
Lemma reconcile_queue st data o w :
  events_ok data = true ->
  exists evs tailq,
    Forall2 (stamped o (ticks w)) (response_events data) evs /\
    queue (snd (reconcile st data o w)) =
    queue w
      ++ when (negb (truthy (conversationId st)))
              [SetConversationId (js_or (prop "conversation_id" data) JNull)]
      ++ [SetCurrentAgent (js_or (prop "current_agent" data) (JStr ""));
          SetContext (js_or (prop "context" data) (JObj []))]
      ++ when (truthy (prop "events" data)) [AppendEvents evs]
      ++ when (truthy (prop "agents" data)) [SetAgents (prop "agents" data)]
      ++ when (truthy (prop "guardrails" data))
              [SetGuardrails (prop "guardrails" data)]
      ++ tailq /\
    (forall s, same_besides_transcript s (commit tailq s)) /\
    (messages_ok data = true ->
     exists msgs,
       Forall2 (response_of o) (response_messages data) msgs /\
       tailq = when (truthy (prop "messages" data)) [AppendMessages msgs]
                    ++ [SetIsLoading false] /\
       fst (reconcile st data o w) = Normal tt).
Proof.
  intros Hev. unfold reconcile.
  rewrite bind_if_enqueue. rewrite !bind_enqueue.
  match goal with
  | |- context [bind (if truthy (prop "events" data) then _ else _) ?k o ?w1] =>
      destruct (events_stage data k o w1 Hev) as (evs & w2 & F & E & Q & T)
  end.
  cbv beta in E. rewrite E. clear E.
  rewrite !bind_if_enqueue.
  match goal with
  | |- context [bind ?m ?k o ?w5] =>
      destruct (reconcile_end_keeps data o w5) as (tailq & Qt & Kt);
      set (W := w5) in *
  end.
  exists evs, tailq. split.
  { eapply Forall2_impl; [|exact F]. intros a b. apply stamped_weaken.
    cbn [ticks push]. rewrite ticks_if_push. lia. }
  assert (QW : queue W =
               queue w
                 ++ when (negb (truthy (conversationId st)))
                      [SetConversationId
                         (js_or (prop "conversation_id" data) JNull)]
                 ++ [SetCurrentAgent
                       (js_or (prop "current_agent" data) (JStr ""));
                     SetContext (js_or (prop "context" data) (JObj []))]
                 ++ when (truthy (prop "events" data)) [AppendEvents evs]
                 ++ when (truthy (prop "agents" data))
                      [SetAgents (prop "agents" data)]
                 ++ when (truthy (prop "guardrails" data))
                      [SetGuardrails (prop "guardrails" data)]).
  { subst W. rewrite !queue_if_push, Q. cbn [queue push].
    rewrite queue_if_push. repeat rewrite <- app_assoc. reflexivity. }
  split; [|split].
  - cbv beta in Qt. rewrite Qt, QW. repeat rewrite <- app_assoc. reflexivity.
  - intros s. pose proof (Kt s) as P. unfold besides_transcript in P.
    injection P as P1 P2 P3 P4 P5 P6 P7 P8 P9.
    unfold same_besides_transcript. auto 10.
  - intros Hm. cbv beta in Qt.
    match type of Qt with
    | queue (snd (bind _ ?k o W)) = _ =>
        destruct (messages_stage data k o W Hm) as (msgs & w6 & Fm & Em & Qm)
    end.
    cbv beta in Em. rewrite Em in Qt |- *. exists msgs. split; [exact Fm|].
    split; [|reflexivity].
    cbn [enqueue snd queue push] in Qt. rewrite Qm, <- app_assoc in Qt.
    apply app_inv_head in Qt. symmetry. exact Qt.
Qed.

End Reconcile.

Section Send.
Import Home.
Implicit Types (o : Oracle) (w : World Update) (st : State).

Lemma response_events_falsy data :
  truthy (prop "events" data) = false -> response_events data = [].
Proof.
  unfold response_events. destruct (prop "events" data); try reflexivity.
  discriminate.
Qed.

Lemma response_messages_falsy data :
  truthy (prop "messages" data) = false -> response_messages data = [].
Proof.
  unfold response_messages. destruct (prop "messages" data); try reflexivity.
  discriminate.
Qed.

(** A send that was answered with a truthy [data] continues with
    [reconcile], the user's message and the pending flag being enqueued. *)
Lemma send_reconciles st content o w data :
  fst (sendTurn st content o (flush w)) = Normal data ->
  truthy data = true ->
  exists w',
    handleSendMessage st content o (flush w) = reconcile st data o w' /\
    queue w' = [AppendMessages [userMsg o (ticks w) content];
                SetIsLoading true] /\
    ticks w' = S (S (ticks w)).
Proof.
  intros H T.
  destruct (handleSendMessage_answer _ _ _ _ _ H) as (w' & E & Q & Tk).
  exists w'. rewrite E, T. auto.
Qed.

(** Current agent and context after a send that was answered. *)
Lemma send_agent_and_context st content o w data :
  fst (sendTurn st content o (flush w)) = Normal data ->
  truthy data = true ->
  let st' := state_of (run (handleSendMessage st content) o w st) in
  currentAgent st' = js_or (prop "current_agent" data) (JStr "") /\
  context st' = js_or (prop "context" data) (JObj []).
Proof.
  intros H T st'. subst st'.
  destruct (send_reconciles _ _ _ _ _ H T) as (w' & E & _).
  unfold run, state_of. cbn [fst snd]. rewrite E.
  apply reconcile_agent_and_context.
Qed.

(** The slices after a send that was answered with a response whose
    events can be walked. *)
Lemma send_slices st content o w data :
  fst (sendTurn st content o (flush w)) = Normal data ->
  truthy data = true ->
  events_ok data = true ->
  let r := run (handleSendMessage st content) o w st in
  exists evs,
    Forall2 (stamped o (2 + ticks w)) (response_events data) evs /\
    events (state_of r) = events st ++ evs /\
    agents (state_of r) =
      (if truthy (prop "agents" data) then prop "agents" data
       else agents st) /\
    guardrails (state_of r) =
      (if truthy (prop "guardrails" data) then prop "guardrails" data
       else guardrails st) /\
    (messages_ok data = true ->
     exists msgs,
       Forall2 (response_of o) (response_messages data) msgs /\
       outcome r = Normal tt /\
       messages (state_of r) =
         messages st ++ userMsg o (ticks w) content :: msgs /\
       isLoading (state_of r) = false).
Proof.
  intros H T Hev r. subst r.
  destruct (send_reconciles _ _ _ _ _ H T) as (w' & E & Q & Tk).
  destruct (reconcile_queue st data o w' Hev)
    as (evs & tailq & F & Qr & Kt & Full).
  unfold run, state_of, outcome. cbn [fst snd]. rewrite E, Qr, Q.
  exists evs. split; [rewrite Tk in F; exact F|].
  assert (Ev : truthy (prop "events" data) = false -> evs = []).
  { intros Fy. rewrite (response_events_falsy _ Fy) in F.
    inversion F. reflexivity. }
  repeat rewrite commit_app.
  match goal with
  | |- context [commit tailq ?X] =>
      destruct (Kt X) as (Pe & Pa & _ & Pg & _)
  end.
  split; [|split; [|split]].
  - rewrite Pe. destruct (truthy (prop "events" data)).
    + destruct (negb (truthy (conversationId st))),
        (truthy (prop "agents" data)), (truthy (prop "guardrails" data));
        reflexivity.
    + rewrite (Ev eq_refl), app_nil_r.
      destruct (negb (truthy (conversationId st))),
        (truthy (prop "agents" data)), (truthy (prop "guardrails" data));
        reflexivity.
  - rewrite Pa.
    destruct (negb (truthy (conversationId st))),
      (truthy (prop "events" data)), (truthy (prop "agents" data)),
      (truthy (prop "guardrails" data)); reflexivity.
  - rewrite Pg.
    destruct (negb (truthy (conversationId st))),
      (truthy (prop "events" data)), (truthy (prop "agents" data)),
      (truthy (prop "guardrails" data)); reflexivity.
  - intros Hm. destruct (Full Hm) as (msgs & Fm & -> & N).
    exists msgs. split; [exact Fm|]. split; [exact N|].
    assert (Ms : truthy (prop "messages" data) = false -> msgs = []).
    { intros Fy. rewrite (response_messages_falsy _ Fy) in Fm.
      inversion Fm. reflexivity. }
    rewrite commit_app.
    destruct (truthy (prop "messages" data)).
    + destruct (negb (truthy (conversationId st))),
        (truthy (prop "events" data)), (truthy (prop "agents" data)),
        (truthy (prop "guardrails" data)); cbn;
        rewrite <- app_assoc; split; reflexivity.
    + rewrite (Ms eq_refl).
      destruct (negb (truthy (conversationId st))),
        (truthy (prop "events" data)), (truthy (prop "agents" data)),
        (truthy (prop "guardrails" data)); cbn; split; reflexivity.
Qed.

End Send.

(* ================================================================= *)
(** ** Current agent, roster and guardrails *)

Section Roster.
Import Home.
Implicit Types (o : Oracle) (w : World Update) (st : State).

(** C3, on the code: a response without [current_agent] clears the
    current agent.  The render shows "Triage Agent"; the send is answered
    with [{conversation_id: "c1", messages: []}]; afterwards the current
    agent is the empty string. *)
Lemma response_without_agent_clears_current_agent :
  let data := JObj [("conversation_id", JStr "c1"); ("messages", JArr [])] in
  let o := answering (HttpResponse 200 (Some data)) in
  let st := mkState [] [] (JArr []) (JStr "Triage Agent") (JArr [])
                    (JObj []) (JStr "c1") false true JNull "CUST001" in
  let st' := state_of (run (handleSendMessage st "hello") o start st) in
  fst (sendTurn st "hello" o (flush start)) = Normal data /\
  prop "current_agent" data = JUndefined /\
  currentAgent st = JStr "Triage Agent" /\
  currentAgent st' = JStr "" /\
  currentAgent st' <> currentAgent st.
Proof.
  cbv zeta. repeat split. vm_compute. discriminate.
Qed.

(** C3, as the code has it.  After a send that the transport answered
    with a truthy response, the current agent is the response's
    [current_agent] when that value is truthy, and the empty string when
    the response omits it (or gives [null], [""], [0] or [false]); the
    value that the render showed plays no part. *)
Theorem current_agent_replaced_or_reset st content o w data :
  fst (sendTurn st content o (flush w)) = Normal data ->
  truthy data = true ->
  currentAgent (state_of (run (handleSendMessage st content) o w st)) =
  (if truthy (prop "current_agent" data)
   then prop "current_agent" data
   else JStr "").
Proof.
  intros H T. apply (send_agent_and_context _ _ _ _ _ H T).
Qed.

Lemma current_agent_replaced_or_reset_witness :
  currentAgent
    (state_of
       (run (handleSendMessage initial "hello")
            (answering
               (HttpResponse 200
                  (Some (JObj [("current_agent", JStr "Seat Booking Agent")]))))
            start initial))
  = JStr "Seat Booking Agent".
Proof.
  exact (current_agent_replaced_or_reset
           initial "hello"
           (answering
              (HttpResponse 200
                 (Some (JObj [("current_agent", JStr "Seat Booking Agent")]))))
           start
           (JObj [("current_agent", JStr "Seat Booking Agent")])
           eq_refl eq_refl).
Defined.

Lemma latest_app k rs1 rs2 prior :
  latest k (rs1 ++ rs2) prior = latest k rs2 (latest k rs1 prior).
Proof.
  revert prior. induction rs1 as [|r rs1 IH]; intros prior; simpl.
  - reflexivity.
  - apply IH.
Qed.

Lemma latest_omitted k rs prior :
  Forall (omits k) rs -> latest k rs prior = prior.
Proof.
  intros F. revert prior. induction F as [|r rs O _ IH]; intros prior; simpl.
  - reflexivity.
  - unfold omits in O. rewrite O. apply IH.
Qed.

(** Roster and guardrails after a series of answered sends. *)
Lemma sendAll_latest o contents :
  forall rs w st,
    answered o contents rs w st ->
    agents (snd (sendAll o contents w st))
    = latest "agents" rs (agents st) /\
    guardrails (snd (sendAll o contents w st))
    = latest "guardrails" rs (guardrails st).
Proof.
  induction contents as [|c contents IH]; intros rs w st A.
  - destruct rs; [|contradiction]. split; reflexivity.
  - destruct rs as [|r rs]; [contradiction|].
    cbn [answered] in A. destruct A as (H & T & Hev & A).
    destruct (send_slices st c o w r H T Hev) as (evs & _ & _ & Ea & Eg & _).
    destruct (IH _ _ _ A) as (Ia & Ig).
    cbn [sendAll latest]. rewrite Ia, Ig, Ea, Eg. split; reflexivity.
Qed.

(** C4. After any series of sends that were answered, the roster is the
    [agents] of the most recent response that included it, and the one
    before the series when no response did: a response that omits it
    leaves it as it was.  The same holds of the guardrail list. *)
Theorem roster_and_guardrails_latest o contents rs w st :
  answered o contents rs w st ->
  let st' := snd (sendAll o contents w st) in
  (forall earlier r later,
      rs = earlier ++ r :: later ->
      truthy (prop "agents" r) = true ->
      Forall (omits "agents") later ->
      agents st' = prop "agents" r) /\
  (Forall (omits "agents") rs -> agents st' = agents st) /\
  (forall earlier r later,
      rs = earlier ++ r :: later ->
      truthy (prop "guardrails" r) = true ->
      Forall (omits "guardrails") later ->
      guardrails st' = prop "guardrails" r) /\
  (Forall (omits "guardrails") rs -> guardrails st' = guardrails st).
Proof.
  intros A st'. subst st'.
  destruct (sendAll_latest o contents rs w st A) as (Ea & Eg).
  rewrite Ea, Eg. repeat split.
  - intros earlier r later -> T O. rewrite latest_app. simpl.
    rewrite T. apply latest_omitted. exact O.
  - apply latest_omitted.
  - intros earlier r later -> T O. rewrite latest_app. simpl.
    rewrite T. apply latest_omitted. exact O.
  - apply latest_omitted.
Qed.

End Roster.

Section RosterWitness.
Import Home.

Lemma roster_and_guardrails_latest_witness :
  let r1 := JObj [("agents", JArr [JObj [("name", JStr "Triage Agent")]])] in
  let r2 := JObj [("current_agent", JStr "Triage Agent")] in
  let o := mkOracle (fun _ => 0%Z) (fun _ => "")
                    (fun n => match n with
                              | 0 => HttpResponse 200 (Some r1)
                              | _ => HttpResponse 200 (Some r2)
                              end) in
  agents (snd (sendAll o ["first"; "second"] start initial))
  = prop "agents" r1.
Proof.
  intros r1 r2 o.
  assert (A : answered o ["first"; "second"] [r1; r2] start initial).
  { cbn [answered]. repeat split; reflexivity. }
  apply (proj1 (roster_and_guardrails_latest
                  o ["first"; "second"] [r1; r2] start initial A)
               [] r1 [r2] eq_refl eq_refl).
  constructor; [reflexivity|constructor].
Defined.

End RosterWitness.

(* ================================================================= *)
(** ** Login and the bootstrap response *)

Section Login.
Import Home.
Implicit Types (o : Oracle) (w : World Update) (st s : State).

(** The bootstrap call of a login for the account [acc]. *)
Lemma handleLogin_answer acc custInfo o w data :
  fst (Api.callChatAPI "" (JStr "") (Some acc) o (flush w)) = Normal data ->
  truthy data = true ->
  exists w',
    handleLogin acc custInfo o (flush w) = seed custInfo data o w' /\
    queue w' = [SetAccountNumber acc; SetCustomerInfo custInfo;
                SetIsLoggedIn true] /\
    ticks w' = ticks w.
Proof.
  intros H T. unfold handleLogin. rewrite !bind_enqueue.
  match goal with
  | |- context [bind (Api.callChatAPI ?m ?c ?a) _ o ?w2] =>
      pose proof (callChatAPI_result m c a o (flush w) w2 eq_refl) as R;
      rewrite H in R;
      pose proof (callChatAPI_truthy m c a o w2 data R T) as E
  end.
  rewrite (bind_normal _ _ _ _ _ _ E), T.
  eexists. split; [reflexivity|]. split; reflexivity.
Qed.

(** The end of [seed], from the loop over the messages on, touches the
    transcript only. *)
Lemma seed_end_keeps custInfo data :
  keeps besides_transcript
        (bind (if isArray (prop "messages" data)
               then bind (array_map (prop "messages" data) assistantMessage)
                         (fun l => enqueue (SetMessages l))
               else ret tt)
              (fun _ =>
                 bind Date_now (fun t =>
                 bind (member custInfo "customer") (fun customer =>
                 bind (member customer "name") (fun name =>
                 bind (template name) (fun text =>
                 bind new_Date (fun d =>
                 enqueue
                   (SetMessages
                      [mkMessage (string_of_Z t) (JStr (welcome_line text))
                                 Assistant (Some (JStr "Triage Agent"))
                                 d])))))))).
Proof. keeps_auto. Qed.

(** The updates of [seed] for a response whose events can be walked; when
    the messages can be walked too, the customer record is there and its
    name has a text, it runs to its last statement, which sets the
    transcript to the welcome message. *)
Lemma seed_queue custInfo data o w :
  events_ok data = true ->
  exists evs tailq,
    Forall2 (stamped o (ticks w)) (response_events data) evs /\
    queue (snd (seed custInfo data o w)) =
    queue w
      ++ [SetConversationId (prop "conversation_id" data);
          SetCurrentAgent (prop "current_agent" data);
          SetContext (prop "context" data);
          SetEvents evs;
          SetAgents (js_or (prop "agents" data) (JArr []));
          SetGuardrails (js_or (prop "guardrails" data) (JArr []))]
      ++ tailq /\
    (forall s, same_besides_transcript s (commit tailq s)) /\
    (initial_messages_ok data = true ->
     nullish custInfo = false ->
     nullish (prop "customer" custInfo) = false ->
     unprintable (prop "name" (prop "customer" custInfo)) = false ->
     exists msgs k,
       Forall2 (response_of o) (response_messages data) msgs /\
       tailq = when (isArray (prop "messages" data)) [SetMessages msgs]
                    ++ [SetMessages [welcome o k custInfo]] /\
       fst (seed custInfo data o w) = Normal tt).
Proof.
  intros Hev. unfold seed. rewrite !bind_enqueue.
  match goal with
  | |- context [bind (array_map _ stampEvent) ?k o ?w1] =>
      destruct (initial_events_stage data k o w1 Hev)
        as (evs & w2 & F & E & Q & T)
  end.
  cbv beta in E. rewrite E. clear E. rewrite !bind_enqueue. cbv zeta.
  match goal with
  | |- context [bind ?m ?k o ?w5] =>
      destruct (seed_end_keeps custInfo data o w5) as (tailq & Qt & Kt);
      set (W := w5) in *
  end.
  exists evs, tailq. split; [exact F|].
  assert (QW : queue W =
               queue w
                 ++ [SetConversationId (prop "conversation_id" data);
                     SetCurrentAgent (prop "current_agent" data);
                     SetContext (prop "context" data);
                     SetEvents evs;
                     SetAgents (js_or (prop "agents" data) (JArr []));
                     SetGuardrails (js_or (prop "guardrails" data) (JArr []))]).
  { subst W. cbn [queue push]. rewrite Q. cbn [queue push].
    repeat rewrite <- app_assoc. reflexivity. }
  split; [|split].
  - cbv beta in Qt. rewrite Qt, QW. repeat rewrite <- app_assoc. reflexivity.
  - intros s. pose proof (Kt s) as P. unfold besides_transcript in P.
    injection P as P1 P2 P3 P4 P5 P6 P7 P8 P9.
    unfold same_besides_transcript. auto 10.
  - intros Hm Nc Nn Np. cbv beta in Qt.
    match type of Qt with
    | queue (snd (bind _ ?k o W)) = _ =>
        destruct (initial_messages_stage data k o W Hm)
          as (msgs & w6 & Fm & Em & Qm)
    end.
    cbv beta in Em. rewrite Em in Qt |- *.
    rewrite bind_Date_now in Qt |- *. cbv beta in Qt |- *.
    rewrite (bind_member _ _ _ _ _ Nc) in Qt |- *.
    rewrite (bind_member _ _ _ _ _ Nn) in Qt |- *.
    rewrite (bind_template _ _ _ _ Np) in Qt |- *.
    rewrite bind_new_Date in Qt |- *. cbv beta in Qt |- *.
    exists msgs, (ticks w6). split; [exact Fm|]. split; [|reflexivity].
    cbn [enqueue snd queue push tick ticks] in Qt.
    rewrite Qm, <- app_assoc in Qt.
    apply app_inv_head in Qt. symmetry. exact Qt.
Qed.

End Login.

(* ================================================================= *)
(** ** Decimal strings and property lists *)

Section Values.

(** Different integers have different decimal forms. *)
Lemma string_of_Z_inj a b : string_of_Z a = string_of_Z b -> a = b.
Proof.
  unfold string_of_Z. intros E.
  assert (P : forall z, NilZero.int_of_string
                          (NilZero.string_of_int (Z.to_int z))
                        = Some (Z.to_int z)).
  { intros z. apply NilZero.isi; destruct z; simpl; try discriminate;
      intros [= H]; revert H; apply DecimalPos.Unsigned.to_uint_nonnil. }
  apply DecimalZ.to_int_inj.
  pose proof (P a) as Pa. rewrite E, P in Pa. congruence.
Qed.

Lemma lookup_set_prop_same k v ps : lookup k (set_prop k v ps) = v.
Proof.
  induction ps as [|[k' v'] ps IH]; simpl.
  - rewrite String.eqb_refl. reflexivity.
  - destruct (k =? k')%string eqn:E; simpl.
    + rewrite String.eqb_refl. reflexivity.
    + rewrite E. exact IH.
Qed.

Lemma lookup_set_prop_other k k' v ps :
  k' <> k -> lookup k' (set_prop k v ps) = lookup k' ps.
Proof.
  intros N. apply String.eqb_neq in N.
  induction ps as [|[k2 v2] ps IH]; simpl.
  - rewrite N. reflexivity.
  - destruct (k =? k2)%string eqn:E; simpl.
    + apply String.eqb_eq in E. subst k2. rewrite N. reflexivity.
    + rewrite IH. reflexivity.
Qed.

(** What [stamped] says of the properties of the result. *)
Lemma stamped_retains o lo e e' :
  Home.stamped o lo e e' -> Home.retains_or_stamps o lo e e'.
Proof.
  intros (t & -> & Keep & Stamp). unfold Home.retains_or_stamps.
  cbn [prop]. rewrite lookup_set_prop_same. split; [exact Keep|].
  split; [exact Stamp|]. intros key N.
  apply lookup_set_prop_other. exact N.
Qed.

End Values.

Section LoginSlices.
Import Home.
Implicit Types (o : Oracle) (w : World Update) (st : State).

(** The state after a login whose bootstrap call was answered with a
    response whose events can be walked. *)
Lemma login_slices acc custInfo o w st data :
  fst (Api.callChatAPI "" (JStr "") (Some acc) o (flush w)) = Normal data ->
  truthy data = true ->
  events_ok data = true ->
  let r := run (handleLogin acc custInfo) o w st in
  exists evs,
    Forall2 (stamped o (ticks w)) (response_events data) evs /\
    events (state_of r) = evs /\
    conversationId (state_of r) = prop "conversation_id" data /\
    currentAgent (state_of r) = prop "current_agent" data /\
    context (state_of r) = prop "context" data /\
    agents (state_of r) = js_or (prop "agents" data) (JArr []) /\
    guardrails (state_of r) = js_or (prop "guardrails" data) (JArr []) /\
    (initial_messages_ok data = true ->
     nullish custInfo = false ->
     nullish (prop "customer" custInfo) = false ->
     unprintable (prop "name" (prop "customer" custInfo)) = false ->
     exists msgs k,
       Forall2 (response_of o) (response_messages data) msgs /\
       outcome r = Normal tt /\
       messages (state_of r) = [welcome o k custInfo] /\
       queue (snd (handleLogin acc custInfo o (flush w))) =
       [SetAccountNumber acc; SetCustomerInfo custInfo; SetIsLoggedIn true;
        SetConversationId (prop "conversation_id" data);
        SetCurrentAgent (prop "current_agent" data);
        SetContext (prop "context" data);
        SetEvents evs;
        SetAgents (js_or (prop "agents" data) (JArr []));
        SetGuardrails (js_or (prop "guardrails" data) (JArr []))]
         ++ when (isArray (prop "messages" data)) [SetMessages msgs]
         ++ [SetMessages [welcome o k custInfo]]).
Proof.
  intros H T Hev r. subst r.
  destruct (handleLogin_answer acc custInfo o w data H T)
    as (w' & E & Q & Tk).
  destruct (seed_queue custInfo data o w' Hev)
    as (evs & tailq & F & Qs & Kt & Full).
  unfold run, state_of, outcome. cbn [fst snd]. rewrite E, Qs, Q.
  exists evs. split; [rewrite Tk in F; exact F|].
  repeat rewrite commit_app.
  match goal with
  | |- context [commit tailq ?X] =>
      destruct (Kt X) as (Pe & Pa & Pc & Pg & Px & Pi & _)
  end.
  rewrite Pe, Pa, Pc, Pg, Px, Pi.
  do 6 (split; [reflexivity|]).
  intros Hm Nc Nn Np.
  destruct (Full Hm Nc Nn Np) as (msgs & k & Fm & -> & N).
  exists msgs, k. split; [exact Fm|]. split; [exact N|].
  split; [|reflexivity].
  rewrite commit_app. reflexivity.
Qed.

End LoginSlices.

(* ================================================================= *)
(** ** The claims on login, context, events and ids *)

Section Claims.
Import Home.
Implicit Types (o : Oracle) (w : World Update) (st : State).

(** A name without a text: the customer record
    [{customer: {name: {toString: 1}}}] makes the template literal of the
    welcome throw, and the login ends without a welcome. *)
Lemma login_name_without_text_throws :
  let data := JObj [("conversation_id", JStr "c1")] in
  let custInfo :=
    JObj [("customer", JObj [("name", JObj [("toString", JNum 1)])])] in
  let r := run (handleLogin "CUST001" custInfo)
               (answering (HttpResponse 200 (Some data))) start initial in
  outcome r = Throw (TypeError "Cannot convert object to primitive value") /\
  messages (state_of r) = [].
Proof. cbv zeta. split; reflexivity. Qed.

(** C2. A login for which the customer record [custInfo] was resolved
    (it has a [customer] with the name [name]) and whose bootstrap call
    returned a response with the non-empty conversation id [cid] ends with
    a transcript of exactly one message, the welcome that contains
    [name]; the conversation id is [cid]; and when the response carried
    messages, [setMessages] was called with the messages made from them
    just before it was called with the welcome alone. *)
Theorem login_leaves_single_welcome acc custInfo o w st data name cid :
  fst (Api.callChatAPI "" (JStr "") (Some acc) o (flush w)) = Normal data ->
  truthy data = true ->
  events_ok data = true ->
  initial_messages_ok data = true ->
  prop "name" (prop "customer" custInfo) = JStr name ->
  prop "conversation_id" data = JStr cid ->
  (cid =? "")%string = false ->
  let r := run (handleLogin acc custInfo) o w st in
  outcome r = Normal tt /\
  (exists k,
      messages (state_of r) =
      [mkMessage (string_of_Z (clock o k))
                 (JStr ("Welcome back, " ++ name
                        ++ "! I can help you with your bookings, flight status, seat changes, and more. How can I assist you today?")%string)
                 Assistant (Some (JStr "Triage Agent")) (clock o (S k))]) /\
  conversationId (state_of r) = JStr cid /\
  truthy (conversationId (state_of r)) = true /\
  (forall ms,
      prop "messages" data = JArr ms ->
      exists q msgs k,
        queue (snd (handleLogin acc custInfo o (flush w))) =
        q ++ [SetMessages msgs; SetMessages [welcome o k custInfo]] /\
        Forall2 (response_of o) ms msgs).
Proof.
  intros H T Hev Hm Hn Hc Hne r. subst r.
  assert (Nc : nullish custInfo = false).
  { destruct custInfo; try reflexivity; discriminate Hn. }
  assert (Nn : nullish (prop "customer" custInfo) = false).
  { destruct (prop "customer" custInfo); try reflexivity; discriminate Hn. }
  assert (Np : unprintable (prop "name" (prop "customer" custInfo)) = false).
  { rewrite Hn. reflexivity. }
  destruct (login_slices acc custInfo o w st data H T Hev)
    as (evs & _ & _ & Ecid & _ & _ & _ & _ & Full).
  destruct (Full Hm Nc Nn Np) as (msgs & k & Fm & N & Em & Eq).
  split; [exact N|]. split; [|split; [|split]].
  - exists k. rewrite Em. unfold welcome, welcome_text. rewrite Hn.
    reflexivity.
  - rewrite Ecid. exact Hc.
  - rewrite Ecid, Hc. cbn [truthy]. rewrite Hne. reflexivity.
  - intros ms Ems. rewrite Eq. unfold response_messages in Fm.
    rewrite Ems in Fm |- *. cbn [isArray when].
    eexists. exists msgs, k. split; [reflexivity|exact Fm].
Qed.

Lemma login_leaves_single_welcome_witness :
  let data := JObj [("conversation_id", JStr "c1");
                    ("current_agent", JStr "Triage Agent");
                    ("messages",
                     JArr [JObj [("content", JStr "Hi"); ("agent", JStr "Triage Agent")]])] in
  let custInfo := JObj [("customer", JObj [("name", JStr "Ann")])] in
  let o := answering (HttpResponse 200 (Some data)) in
  conversationId
    (state_of (run (handleLogin "CUST001" custInfo) o start initial))
  = JStr "c1".
Proof.
  intros data custInfo o.
  exact (proj1 (proj2 (proj2
           (login_leaves_single_welcome
              "CUST001" custInfo o start initial data "Ann" "c1"
              eq_refl eq_refl eq_refl eq_refl eq_refl eq_refl eq_refl)))).
Defined.

(** The context after a login is the [context] of the bootstrap response
    as it is, [undefined] included. *)
Lemma login_context acc custInfo o w st data :
  fst (Api.callChatAPI "" (JStr "") (Some acc) o (flush w)) = Normal data ->
  truthy data = true ->
  events_ok data = true ->
  context (state_of (run (handleLogin acc custInfo) o w st))
  = prop "context" data.
Proof.
  intros H T Hev.
  destruct (login_slices acc custInfo o w st data H T Hev)
    as (evs & _ & _ & _ & _ & E & _).
  exact E.
Qed.

(** The context after a send is the [context] of the response, and the
    empty object when the response has none. *)
Lemma send_context st content o w data :
  fst (sendTurn st content o (flush w)) = Normal data ->
  truthy data = true ->
  context (state_of (run (handleSendMessage st content) o w st))
  = (if truthy (prop "context" data) then prop "context" data else JObj []).
Proof. intros H T. apply (send_agent_and_context _ _ _ _ _ H T). Qed.

(** C5, where the code departs from it: the bootstrap response
    [{conversation_id: "c1", current_agent: "Triage Agent"}] has no
    [context], and the login leaves the context [undefined], not the empty
    object. *)
Theorem login_context_not_defaulted :
  let data := JObj [("conversation_id", JStr "c1");
                    ("current_agent", JStr "Triage Agent")] in
  let custInfo := JObj [("customer", JObj [("name", JStr "Ann")])] in
  let o := answering (HttpResponse 200 (Some data)) in
  let st' := state_of (run (handleLogin "CUST001" custInfo) o start initial) in
  fst (Api.callChatAPI (U := Update) "" (JStr "") (Some "CUST001") o
                       (flush start)) = Normal data /\
  prop "context" data = JUndefined /\
  context st' = JUndefined /\
  context st' <> JObj [].
Proof.
  cbv zeta. repeat split. vm_compute. discriminate.
Qed.

(** C6. Each event of a response that a handler walks is kept with its
    own [timestamp] when it came with one, and with a reading of the clock
    made after the response arrived when it came with none; its other
    properties are kept.  After a send the events so made are appended
    to the trace, after a login they are the trace. *)
Theorem event_timestamps_kept_or_stamped o w data :
  truthy data = true ->
  events_ok data = true ->
  (forall st content,
      fst (sendTurn st content o (flush w)) = Normal data ->
      exists evs,
        events (state_of (run (handleSendMessage st content) o w st))
        = events st ++ evs /\
        Forall2 (retains_or_stamps o (2 + ticks w))
                (response_events data) evs) /\
  (forall st acc custInfo,
      fst (Api.callChatAPI "" (JStr "") (Some acc) o (flush w))
      = Normal data ->
      exists evs,
        events (state_of (run (handleLogin acc custInfo) o w st)) = evs /\
        Forall2 (retains_or_stamps o (ticks w))
                (response_events data) evs).
Proof.
  intros T Hev. split.
  - intros st content H.
    destruct (send_slices st content o w data H T Hev)
      as (evs & F & E & _).
    exists evs. split; [exact E|].
    eapply Forall2_impl; [|exact F]. intros a b. apply stamped_retains.
  - intros st acc custInfo H.
    destruct (login_slices acc custInfo o w st data H T Hev)
      as (evs & F & E & _).
    exists evs. split; [exact E|].
    eapply Forall2_impl; [|exact F]. intros a b. apply stamped_retains.
Qed.

End Claims.

Section Ids.
Import Home.
Implicit Types (o : Oracle) (w : World Update) (st : State).

Lemma event_timestamps_kept_or_stamped_witness :
  let data :=
    JObj [("events",
           JArr [JObj [("type", JStr "handoff"); ("timestamp", JNum 5)];
                 JObj [("type", JStr "tool_call")]])] in
  let o := answering (HttpResponse 200 (Some data)) in
  exists evs,
    events (state_of (run (handleSendMessage initial "hi") o start initial))
    = events initial ++ evs /\
    Forall2 (retains_or_stamps o (2 + ticks (start (U := Update))))
            (response_events data) evs.
Proof.
  intros data o.
  exact (proj1 (event_timestamps_kept_or_stamped o start data
                                                  eq_refl eq_refl)
               initial "hi" eq_refl).
Defined.

(** C8, on the code: the user's message and the system message of a
    failed send made within one millisecond have the same id. *)
Lemma same_millisecond_ids_collide :
  let o := mkOracle (fun _ => 1700000000000%Z) (fun _ => "0.5")
                    (fun _ => NetworkFailure) in
  let st' := state_of (run (handleSendMessage initial "hi") o start initial) in
  map id (messages st') = ["1700000000000"; "1700000000000"] /\
  ~ NoDup (map id (messages st')).
Proof.
  cbv zeta.
  assert (E : map id
                (messages
                   (state_of
                      (run (handleSendMessage initial "hi")
                           (mkOracle (fun _ => 1700000000000%Z)
                                     (fun _ => "0.5")
                                     (fun _ => NetworkFailure))
                           start initial)))
              = ["1700000000000"; "1700000000000"]) by (vm_compute; reflexivity).
  split; [exact E|]. rewrite E. intros N. inversion N as [|x l NI _].
  apply NI. left. reflexivity.
Qed.

Lemma response_ids o ms msgs :
  Forall2 (response_of o) ms msgs ->
  Forall (fun m => exists k j,
              id m = (string_of_Z (clock o k) ++ random o j)%string)
         msgs.
Proof.
  induction 1 as [|m r ms rs R _ IH]; constructor.
  - destruct R as (_ & _ & _ & I). exact I.
  - exact IH.
Qed.

(** C8, as the code has it.  The id of a user message, of the system
    message and of the welcome message is the decimal form of one clock
    reading and nothing else; the id of a message made from a response is
    a clock reading followed by a random suffix.  Two ids of the first
    kind are equal exactly when the two clock readings are.  (The welcome
    is the one of a login that reaches it: the customer record has a
    [customer] whose [name] is a string.) *)
Theorem transcript_ids o w st :
  (forall content data,
      fst (sendTurn st content o (flush w)) = Normal data ->
      truthy data = false ->
      map id (messages (state_of (run (handleSendMessage st content) o w st)))
      = map id (messages st)
            ++ [string_of_Z (clock o (ticks w));
                string_of_Z (clock o (2 + ticks w))]) /\
  (forall content data,
      fst (sendTurn st content o (flush w)) = Normal data ->
      truthy data = true ->
      events_ok data = true ->
      messages_ok data = true ->
      exists msgs,
        messages (state_of (run (handleSendMessage st content) o w st))
        = messages st ++ userMsg o (ticks w) content :: msgs /\
        id (userMsg o (ticks w) content) = string_of_Z (clock o (ticks w)) /\
        Forall (fun m => exists k j,
                    id m = (string_of_Z (clock o k) ++ random o j)%string)
               msgs) /\
  (forall acc custInfo data name,
      fst (Api.callChatAPI "" (JStr "") (Some acc) o (flush w))
      = Normal data ->
      truthy data = true ->
      events_ok data = true ->
      initial_messages_ok data = true ->
      prop "name" (prop "customer" custInfo) = JStr name ->
      exists k,
        map id (messages (state_of (run (handleLogin acc custInfo) o w st)))
        = [string_of_Z (clock o k)]) /\
  (forall a b, string_of_Z a = string_of_Z b <-> a = b).
Proof.
  split; [|split; [|split]].
  - intros content data H F.
    destruct (failed_send_state st content o w data H F) as (_ & E).
    rewrite E. cbn [messages]. rewrite map_app. reflexivity.
  - intros content data H T Hev Hm.
    destruct (send_slices st content o w data H T Hev)
      as (evs & _ & _ & _ & _ & Full).
    destruct (Full Hm) as (msgs & Fm & _ & E & _).
    exists msgs. split; [exact E|]. split; [reflexivity|].
    eapply response_ids. exact Fm.
  - intros acc custInfo data name H T Hev Hm Hn.
    assert (Nc : nullish custInfo = false).
    { destruct custInfo; try reflexivity; discriminate Hn. }
    assert (Nn : nullish (prop "customer" custInfo) = false).
    { destruct (prop "customer" custInfo); try reflexivity; discriminate Hn. }
    assert (Np : unprintable (prop "name" (prop "customer" custInfo)) = false).
    { rewrite Hn. reflexivity. }
    destruct (login_slices acc custInfo o w st data H T Hev)
      as (evs & _ & _ & _ & _ & _ & _ & _ & Full).
    destruct (Full Hm Nc Nn Np) as (msgs & k & _ & _ & E & _).
    exists k. rewrite E. reflexivity.
  - intros a b. split; [apply string_of_Z_inj|congruence].
Qed.

Lemma transcript_ids_witness :
  let data :=
    JObj [("messages",
           JArr [JObj [("content", JStr "Hello"); ("agent", JStr "Triage Agent")]])] in
  let o := answering (HttpResponse 200 (Some data)) in
  exists msgs,
    messages (state_of (run (handleSendMessage initial "hi") o start initial))
    = messages initial ++ userMsg o (ticks (start (U := Update))) "hi" :: msgs /\
    id (userMsg o (ticks (start (U := Update))) "hi")
    = string_of_Z (clock o (ticks (start (U := Update)))) /\
    Forall (fun m => exists k j,
                id m = (string_of_Z (clock o k) ++ random o j)%string)
           msgs.
Proof.
  intros data o.
  exact (proj1 (proj2 (transcript_ids o start initial))
               "hi" data eq_refl eq_refl eq_refl eq_refl).
Defined.

End Ids.

(* ================================================================= *)
(** ** Further properties of the transport helpers *)

Section MoreTransport.
Context {U : Type}.

(** X1.  [getBookingInfo] has the contract of [callChatAPI]: one GET of
    [/booking/<confirmationNumber>] without body; [null] and a logged
    error on a network failure and on a status outside 200-299; the parsed
    body on a status inside (and a rejection when it does not parse). *)
Theorem getBookingInfo_contract confirmationNumber (o : Oracle) (w : World U) :
  let r := Api.getBookingInfo confirmationNumber o w in
  sent (snd r) =
  sent w ++ [mkRequest GET ("/booking/" ++ confirmationNumber)%string None] /\
  match network o (calls w) with
  | NetworkFailure =>
      fst r = Normal JNull /\
      exists detail,
        console (snd r) = console w ++ [("Error fetching booking info:", detail)]
  | HttpResponse status js =>
      if ok status then
        console (snd r) = console w /\
        match js with
        | Some parsed => fst r = Normal parsed
        | None => exists e, fst r = Throw e
        end
      else
        fst r = Normal JNull /\
        console (snd r) =
        console w ++ [("Error fetching booking info:",
                       ("Error: Booking API error: "
                          ++ string_of_Z status)%string)]
  end.
Proof.
  intros r. subst r.
  unfold Api.getBookingInfo, bind, try_catch, fetch, await.
  destruct (network o (calls w)) as [|st js]; simpl.
  - split; [reflexivity|]. split; [reflexivity|]. eexists. reflexivity.
  - destruct (ok st); simpl.
    + split; [reflexivity|]. split; [reflexivity|]. destruct js; simpl; eauto.
    + split; [reflexivity|]. split; reflexivity.
Qed.

(** X2.  [getCustomerInfo] has the same contract, on
    [/customer/<accountNumber>]: the status 404 is logged with its number
    but returned as [null], like every other failure. *)
Theorem getCustomerInfo_contract accountNumber (o : Oracle) (w : World U) :
  let r := Api.getCustomerInfo accountNumber o w in
  sent (snd r) =
  sent w ++ [mkRequest GET ("/customer/" ++ accountNumber)%string None] /\
  match network o (calls w) with
  | NetworkFailure =>
      fst r = Normal JNull /\
      exists detail,
        console (snd r) = console w ++ [("Error fetching customer info:", detail)]
  | HttpResponse status js =>
      if ok status then
        console (snd r) = console w /\
        match js with
        | Some parsed => fst r = Normal parsed
        | None => exists e, fst r = Throw e
        end
      else
        fst r = Normal JNull /\
        console (snd r) =
        console w ++ [("Error fetching customer info:",
                       ("Error: Customer API error: "
                          ++ string_of_Z status)%string)]
  end.
Proof.
  intros r. subst r.
  unfold Api.getCustomerInfo, bind, try_catch, fetch, await.
  destruct (network o (calls w)) as [|st js]; simpl.
  - split; [reflexivity|]. split; [reflexivity|]. eexists. reflexivity.
  - destruct (ok st); simpl.
    + split; [reflexivity|]. split; [reflexivity|]. destruct js; simpl; eauto.
    + split; [reflexivity|]. split; reflexivity.
Qed.

(** X3.  The [catch] of [callChatAPI] does not cover the body: the call throws
    to its caller exactly when the status is ok and the body does not
    parse. *)
Theorem callChatAPI_throws_iff message cid acc (o : Oracle) (w : World U) :
  (exists e, fst (Api.callChatAPI message cid acc o w) = Throw e) <->
  (exists status,
      network o (calls w) = HttpResponse status None /\ ok status = true).
Proof.
  rewrite callChatAPI_eq. simpl.
  destruct (network o (calls w)) as [|st js]; simpl.
  - split; [intros (e & E); discriminate E|intros (s & E & _); discriminate E].
  - destruct (ok st) eqn:K; simpl.
    + destruct js as [v|]; simpl.
      * split; [intros (e & E); discriminate E
               |intros (s & E & _); discriminate E].
      * split; [intros _; exists st; auto|intros _; eauto].
    + split; [intros (e & E); discriminate E|].
      intros (s & E & K'). injection E as <-. congruence.
Qed.

(** X4.  Every call of [callChatAPI] makes one request and no more, whatever
    comes back, and touches neither the clock, nor the random source, nor
    the pending state updates; it logs at most one line. *)
Theorem callChatAPI_one_request message cid acc (o : Oracle) (w : World U) :
  let w' := snd (Api.callChatAPI message cid acc o w) in
  calls w' = S (calls w) /\
  List.length (sent w') = S (List.length (sent w)) /\
  ticks w' = ticks w /\ draws w' = draws w /\ queue w' = queue w /\
  (console w' = console w \/ exists line, console w' = console w ++ [line]).
Proof.
  intros w'. subst w'. rewrite callChatAPI_eq. simpl.
  assert (L : forall r : Request,
             List.length (sent w ++ [r]) = S (List.length (sent w))).
  { intros r. rewrite List.length_app. simpl. lia. }
  destruct (network o (calls w)) as [|st js]; simpl.
  - repeat split; auto. right. eexists. reflexivity.
  - destruct (ok st); simpl; repeat split; auto.
    right. eexists. reflexivity.
Qed.

End MoreTransport.

(* ================================================================= *)
(** ** Relations that a handler preserves *)

Section Preserving.
Import Home.
Variable R : State -> State -> Prop.
Hypothesis R_refl : forall s, R s s.
Hypothesis R_trans : forall s s' s'', R s s' -> R s' s'' -> R s s''.

Lemma preserves_quiet {A} (m : M Update A) :
  (forall o w, queue (snd (m o w)) = queue w) -> preserves R m.
Proof. intros Q o w. apply effect_quiet; auto. Qed.

Lemma preserves_ret {A} (a : A) : preserves R (ret a).
Proof. apply preserves_quiet. reflexivity. Qed.

Lemma preserves_throw {A} e : preserves R (throw (A := A) e).
Proof. apply preserves_quiet. reflexivity. Qed.

Lemma preserves_Date_now : preserves R Date_now.
Proof. apply preserves_quiet. reflexivity. Qed.

Lemma preserves_random : preserves R Math_random_toString.
Proof. apply preserves_quiet. reflexivity. Qed.

Lemma preserves_console_error l d : preserves R (console_error l d).
Proof. apply preserves_quiet. reflexivity. Qed.

Lemma preserves_member v k : preserves R (member v k).
Proof.
  apply preserves_quiet. intros o w. unfold member.
  destruct (nullish v); reflexivity.
Qed.

Lemma preserves_template v : preserves R (template v).
Proof.
  apply preserves_quiet. intros o w. unfold template.
  destruct (unprintable v); reflexivity.
Qed.

Lemma preserves_callChatAPI message cid acc :
  preserves R (Api.callChatAPI message cid acc).
Proof.
  apply preserves_quiet. intros o w. rewrite callChatAPI_eq. simpl.
  destruct (network o (calls w)) as [|st js]; [reflexivity|].
  destruct (ok st); reflexivity.
Qed.

Lemma preserves_enqueue u :
  (forall s, R s (apply u s)) -> preserves R (enqueue u).
Proof. intros H o w. apply effect_enqueue. exact H. Qed.

(** Sequencing, the continuation knowing what the first part returned. *)
Lemma preserves_bind_result {A B} (m : M Update A) (k : A -> M Update B) :
  preserves R m ->
  (forall a o w w', m o w = (Normal a, w') -> effect (k a) o w' R) ->
  preserves R (bind m k).
Proof.
  intros Hm Hk o w.
  eapply effect_bind with (R1 := R) (R2 := R).
  - apply Hm.
  - intros a w' E. eapply Hk. exact E.
  - auto.
  - exact R_trans.
Qed.

Lemma preserves_bind {A B} (m : M Update A) (k : A -> M Update B) :
  preserves R m -> (forall a, preserves R (k a)) -> preserves R (bind m k).
Proof.
  intros Hm Hk. apply preserves_bind_result; [exact Hm|].
  intros a o w w' _. apply Hk.
Qed.

Lemma preserves_if {A} (b : bool) (m1 m2 : M Update A) :
  preserves R m1 -> preserves R m2 -> preserves R (if b then m1 else m2).
Proof. destruct b; auto. Qed.

Lemma preserves_mapM {A B} (g : A -> M Update B) l :
  (forall x, preserves R (g x)) -> preserves R (mapM g l).
Proof.
  intros Hg. induction l as [|x l IH]; simpl.
  - apply preserves_ret.
  - apply preserves_bind; [apply Hg|]. intros y.
    apply preserves_bind; [exact IH|]. intros ys. apply preserves_ret.
Qed.

Lemma preserves_array_map {B} v (g : JsValue -> M Update B) :
  (forall x, preserves R (g x)) -> preserves R (array_map v g).
Proof.
  intros Hg. destruct v; simpl; try apply preserves_throw.
  apply preserves_mapM. exact Hg.
Qed.

Lemma preserves_stampEvent e : preserves R (stampEvent e).
Proof.
  apply preserves_quiet. intros o w.
  unfold stampEvent, bind, member.
  destruct (nullish e); [reflexivity|]. simpl.
  destruct (nullish (prop "timestamp" e)); reflexivity.
Qed.

Lemma preserves_assistantMessage m : preserves R (assistantMessage m).
Proof.
  apply preserves_quiet. intros o w.
  unfold assistantMessage, bind, member, Date_now, new_Date,
    Math_random_toString, ret.
  destruct (nullish m); reflexivity.
Qed.

(** A handler that preserves [R] relates the state of the render to the
    state after its updates. *)
Lemma preserves_run (m : M Update unit) o w st :
  preserves R m -> R st (state_of (run m o w st)).
Proof.
  intros P. destruct (P o (flush w)) as (extra & Q & H).
  unfold run, state_of. cbn [snd]. rewrite Q. apply H.
Qed.

(** When every send preserves [R], so does a series of sends. *)
Lemma preserves_sendAll o contents :
  (forall st c, preserves R (handleSendMessage st c)) ->
  forall w st, R st (snd (sendAll o contents w st)).
Proof.
  intros P. induction contents as [|c contents IH]; intros w st.
  - apply R_refl.
  - cbn [sendAll]. eapply R_trans; [|apply IH].
    apply preserves_run. apply P.
Qed.

End Preserving.

(** [preserves_with refl trans pre tac] walks through a handler, [refl] and
    [trans] being the proofs that the relation is a preorder, [pre] a tactic
    tried first at every statement and [tac] the tactic for the calls of the
    setters. *)
Ltac preserves_with refl trans pre tac :=
  repeat first
    [ pre
    | apply (preserves_ret _ refl) | apply (preserves_throw _ refl)
    | apply (preserves_Date_now _ refl) | apply (preserves_random _ refl)
    | apply (preserves_console_error _ refl)
    | apply (preserves_member _ refl)
    | apply (preserves_template _ refl)
    | apply (preserves_callChatAPI _ refl)
    | apply (preserves_stampEvent _ refl)
    | apply (preserves_assistantMessage _ refl)
    | apply (preserves_array_map _ refl trans); intros ?
    | apply preserves_if
    | apply (preserves_bind _ trans); [|intros ?]
    | apply preserves_enqueue; tac ].

(* ================================================================= *)
(** ** What every send keeps *)

Section EverySend.
Import Home.
Implicit Types (o : Oracle) (w : World Update) (st : State).

Lemma grows_refl s : grows s s.
Proof. split; exists []; symmetry; apply app_nil_r. Qed.

Lemma grows_trans s s' s'' : grows s s' -> grows s' s'' -> grows s s''.
Proof.
  intros ((l1 & M1) & (e1 & E1)) ((l2 & M2) & (e2 & E2)). split.
  - exists (l1 ++ l2). rewrite M2, M1, app_assoc. reflexivity.
  - exists (e1 ++ e2). rewrite E2, E1, app_assoc. reflexivity.
Qed.

Ltac grows_setter :=
  intros ?; split; eexists; cbn;
  first [reflexivity | symmetry; apply app_nil_r].

Lemma handleSendMessage_grows st content :
  preserves grows (handleSendMessage st content).
Proof.
  unfold handleSendMessage, sendTurn, fallback, reconcile.
  preserves_with grows_refl grows_trans fail grows_setter.
Qed.

(** X5.  The transcript and the event trace are append-only under sends.
    Whatever the network answers to a series of sends, and also when a
    handler throws on a malformed response, the transcript before the
    series is a prefix of the transcript after it, and so is the event
    trace. *)
Theorem sends_append_only o contents w st :
  let st' := snd (sendAll o contents w st) in
  (exists l, messages st' = messages st ++ l) /\
  (exists l, events st' = events st ++ l).
Proof.
  apply (preserves_sendAll grows grows_refl grows_trans).
  intros st0 c. apply handleSendMessage_grows.
Qed.

End EverySend.

Section StampedTrace.
Import Home.
Implicit Types (o : Oracle) (w : World Update) (st : State).

Lemma stamping_refl s : stamping s s.
Proof. intros H. exact H. Qed.

Lemma stamping_trans s s' s'' :
  stamping s s' -> stamping s' s'' -> stamping s s''.
Proof. unfold stamping. auto. Qed.

Lemma stampEvent_result e o w e' w' :
  stampEvent e o w = (Normal e', w') -> well_stamped e' = true.
Proof.
  unfold stampEvent, bind, member.
  destruct (nullish e); [discriminate|]. simpl.
  destruct (nullish (prop "timestamp" e)) eqn:T; simpl;
    intros [= <- _]; cbn [well_stamped]; rewrite lookup_set_prop_same.
  - reflexivity.
  - rewrite T. reflexivity.
Qed.

Lemma mapM_stampEvent_result es :
  forall o w l w',
    mapM stampEvent es o w = (Normal l, w') -> forallb well_stamped l = true.
Proof.
  induction es as [|e es IH]; intros o w l w'; simpl.
  - intros [= <- _]. reflexivity.
  - unfold bind at 1.
    destruct (stampEvent e o w) as [[e'|err] w1] eqn:E1; [|discriminate].
    unfold bind at 1.
    destruct (mapM stampEvent es o w1) as [[l'|err] w2] eqn:E2; [|discriminate].
    intros [= <- _]. simpl.
    rewrite (stampEvent_result _ _ _ _ _ E1), (IH _ _ _ _ E2). reflexivity.
Qed.

Lemma array_map_stampEvent_result v o w l w' :
  array_map v stampEvent o w = (Normal l, w') -> forallb well_stamped l = true.
Proof.
  destruct v; simpl; try discriminate. apply mapM_stampEvent_result.
Qed.

Ltac stamping_setter := intros ? H; exact H.

(** The loop over the events of a send, with the append that follows. *)
Lemma append_events_stamping v :
  preserves stamping
            (bind (array_map v stampEvent)
                  (fun stamped => enqueue (AppendEvents stamped))).
Proof.
  apply (preserves_bind_result _ stamping_trans).
  - preserves_with stamping_refl stamping_trans fail stamping_setter.
  - intros l o w w' E. apply effect_enqueue. intros s H.
    unfold all_stamped in *. cbn. rewrite forallb_app, H.
    apply (array_map_stampEvent_result _ _ _ _ _ E).
Qed.

Lemma handleSendMessage_stamping st content :
  preserves stamping (handleSendMessage st content).
Proof.
  unfold handleSendMessage, sendTurn, fallback, reconcile.
  preserves_with stamping_refl stamping_trans
                 ltac:(apply append_events_stamping) stamping_setter.
Qed.

Lemma handleLogin_stamping acc custInfo :
  preserves stamping (handleLogin acc custInfo).
Proof.
  unfold handleLogin, seed.
  preserves_with
    stamping_refl stamping_trans
    ltac:(idtac;
          match goal with
          | |- preserves stamping (bind (array_map _ stampEvent) _) =>
              apply (preserves_bind_result _ stamping_trans);
              [|let l := fresh "l" in
                let E := fresh "E" in
                intros l ? ? ? E;
                apply array_map_stampEvent_result in E;
                match goal with
                | |- effect ?k ?o ?w' _ =>
                    revert o w'; change (preserves stamping k)
                end;
                apply (preserves_bind _ stamping_trans);
                [apply preserves_enqueue; intros ? _; exact E|intros ?]]
          end)
    stamping_setter.
Qed.

(** X6.  Every event that the handlers put in the trace is an object with a
    [timestamp] that is neither [undefined] nor [null]: a trace of such
    events stays one under a login and under any series of sends, whatever
    the network answers. *)
Theorem trace_stays_stamped o w st :
  all_stamped st ->
  (forall acc custInfo,
      all_stamped (state_of (run (handleLogin acc custInfo) o w st))) /\
  (forall contents, all_stamped (snd (sendAll o contents w st))).
Proof.
  intros H. split.
  - intros acc custInfo.
    apply (preserves_run stamping (handleLogin acc custInfo) o w st
                         (handleLogin_stamping acc custInfo) H).
  - intros contents.
    apply (preserves_sendAll stamping stamping_refl stamping_trans o contents
                             handleSendMessage_stamping w st H).
Qed.

Lemma trace_stays_stamped_witness :
  let data :=
    JObj [("events", JArr [JObj [("type", JStr "handoff")]; JNum 7])] in
  let o := answering (HttpResponse 200 (Some data)) in
  all_stamped (snd (sendAll o ["hi"; "again"] start initial)).
Proof.
  intros data o.
  exact (proj2 (trace_stays_stamped o start initial eq_refl)
               ["hi"; "again"]).
Defined.

End StampedTrace.

(* ================================================================= *)
(** ** The conversation id *)

Section ConversationId.
Import Home.
Implicit Types (o : Oracle) (w : World Update) (st : State).

Lemma handleSendMessage_keeps_known_id st content :
  truthy (conversationId st) = true ->
  preserves (fun s s' => conversationId s' = conversationId s)
            (handleSendMessage st content).
Proof.
  intros H. unfold handleSendMessage, sendTurn, fallback, reconcile.
  rewrite H. cbn [negb].
  preserves_with (fun s : State => eq_refl (conversationId s))
                 (fun (s s' s'' : State)
                      (E1 : conversationId s' = conversationId s)
                      (E2 : conversationId s'' = conversationId s') =>
                    eq_trans E2 E1)
                 fail ltac:(intros ?; reflexivity).
Qed.

(** X7.  Once a conversation id is known (truthy), no send changes it: not a
    response that carries another id, not a failed turn, not a handler that
    throws. *)
Theorem known_conversation_id_is_kept o contents :
  forall w st,
    truthy (conversationId st) = true ->
    conversationId (snd (sendAll o contents w st)) = conversationId st.
Proof.
  induction contents as [|c contents IH]; intros w st H.
  - reflexivity.
  - cbn [sendAll].
    pose proof (preserves_run _ (handleSendMessage st c) o w st
                              (handleSendMessage_keeps_known_id st c H)) as E.
    cbv beta in E. rewrite IH; [exact E|]. rewrite E. exact H.
Qed.

Lemma known_conversation_id_is_kept_witness :
  let st := mkState [] [] (JArr []) (JStr "") (JArr []) (JObj [])
                    (JStr "c1") false true JNull "CUST001" in
  let o := answering
             (HttpResponse 200 (Some (JObj [("conversation_id", JStr "c2")]))) in
  conversationId (snd (sendAll o ["hi"; "again"] start st)) = JStr "c1".
Proof.
  intros st o.
  exact (known_conversation_id_is_kept o ["hi"; "again"] start st eq_refl).
Defined.

(** X8.  While no conversation id is known, a send that is answered adopts the
    [conversation_id] of the response, or [null] when the response has
    none; this is done before anything in the response can make the handler
    throw. *)
Theorem unknown_conversation_id_is_adopted st content o w data :
  truthy (conversationId st) = false ->
  fst (sendTurn st content o (flush w)) = Normal data ->
  truthy data = true ->
  conversationId (state_of (run (handleSendMessage st content) o w st)) =
  (if truthy (prop "conversation_id" data)
   then prop "conversation_id" data
   else JNull).
Proof.
  intros C H T.
  destruct (send_reconciles _ _ _ _ _ H T) as (w' & E & Q & _).
  unfold run, state_of. cbn [fst snd]. rewrite E.
  unfold reconcile. rewrite C. cbn [negb]. rewrite !bind_enqueue.
  rewrite (keeps_commit conversationId) by keeps_auto.
  cbn [queue push]. rewrite Q. reflexivity.
Qed.

Lemma unknown_conversation_id_is_adopted_witness :
  conversationId
    (state_of
       (run (handleSendMessage initial "hi")
            (answering
               (HttpResponse 200 (Some (JObj [("conversation_id", JStr "c7")]))))
            start initial))
  = JStr "c7".
Proof.
  exact (unknown_conversation_id_is_adopted
           initial "hi"
           (answering
              (HttpResponse 200 (Some (JObj [("conversation_id", JStr "c7")]))))
           start (JObj [("conversation_id", JStr "c7")])
           eq_refl eq_refl eq_refl).
Defined.

End ConversationId.

(* ================================================================= *)
(** ** Requests *)

Section Offline.
Context {U : Type}.

Lemma offline_quiet {A} (m : M U A) :
  (forall o w, calls (snd (m o w)) = calls w) ->
  (forall o w, sent (snd (m o w)) = sent w) ->
  offline m.
Proof. intros C S o w. split; auto. Qed.

Lemma offline_ret {A} (a : A) : offline (ret (U := U) a).
Proof. apply offline_quiet; reflexivity. Qed.

Lemma offline_throw {A} e : offline (throw (U := U) (A := A) e).
Proof. apply offline_quiet; reflexivity. Qed.

Lemma offline_Date_now : offline (Date_now (U := U)).
Proof. apply offline_quiet; reflexivity. Qed.

Lemma offline_random : offline (Math_random_toString (U := U)).
Proof. apply offline_quiet; reflexivity. Qed.

Lemma offline_console_error l d : offline (console_error (U := U) l d).
Proof. apply offline_quiet; reflexivity. Qed.

Lemma offline_enqueue (u : U) : offline (enqueue u).
Proof. apply offline_quiet; reflexivity. Qed.

Lemma offline_member v k : offline (member (U := U) v k).
Proof.
  apply offline_quiet; intros o w; unfold member;
    destruct (nullish v); reflexivity.
Qed.

Lemma offline_template v : offline (template (U := U) v).
Proof.
  apply offline_quiet; intros o w; unfold template;
    destruct (unprintable v); reflexivity.
Qed.

Lemma offline_bind {A B} (m : M U A) (k : A -> M U B) :
  offline m -> (forall a, offline (k a)) -> offline (bind m k).
Proof.
  intros Hm Hk o w. unfold bind. destruct (Hm o w) as (C & S).
  destruct (m o w) as [[a|e] w']; simpl in *.
  - destruct (Hk a o w') as (C' & S'). split; congruence.
  - split; assumption.
Qed.

Lemma offline_if {A} (b : bool) (m1 m2 : M U A) :
  offline m1 -> offline m2 -> offline (if b then m1 else m2).
Proof. destruct b; auto. Qed.

Lemma offline_mapM {A B} (g : A -> M U B) l :
  (forall x, offline (g x)) -> offline (mapM g l).
Proof.
  intros Hg. induction l as [|x l IH]; simpl.
  - apply offline_ret.
  - apply offline_bind; [apply Hg|]. intros y.
    apply offline_bind; [exact IH|]. intros ys. apply offline_ret.
Qed.

Lemma offline_array_map {B} v (g : JsValue -> M U B) :
  (forall x, offline (g x)) -> offline (array_map v g).
Proof.
  intros Hg. destruct v; simpl; try apply offline_throw.
  apply offline_mapM. exact Hg.
Qed.

(** A call of [callChatAPI] followed by statements that make no request:
    one request in all, also when the call or a statement throws. *)
Lemma one_request_then_offline {B} message cid acc (k : JsValue -> M U B)
      o w :
  (forall a, offline (k a)) ->
  let w' := snd (bind (Api.callChatAPI message cid acc) k o w) in
  calls w' = S (calls w) /\
  sent w' = sent w ++ [mkRequest POST "/chat"
                         (Some (JObj (Api.chat_body message cid acc)))].
Proof.
  intros Hk w'. subst w'. unfold bind. rewrite callChatAPI_eq. simpl.
  assert (K : forall a w1,
             calls (snd (k a o w1)) = calls w1 /\
             sent (snd (k a o w1)) = sent w1) by (intros a w1; apply Hk).
  destruct (network o (calls w)) as [|st js].
  - destruct (K JNull
                (logged ("Error sending message:", "TypeError: Failed to fetch")
                   (called (mkRequest POST "/chat"
                              (Some (JObj (Api.chat_body message cid acc))))
                           w))) as (C & S).
    rewrite C, S. split; reflexivity.
  - destruct (ok st).
    + destruct js as [v|]; simpl; [|split; reflexivity].
      destruct (K v (called (mkRequest POST "/chat"
                               (Some (JObj (Api.chat_body message cid acc))))
                            w)) as (C & S).
      rewrite C, S. split; reflexivity.
    + match goal with
      | |- context [k JNull o ?w1] => destruct (K JNull w1) as (C & S)
      end.
      rewrite C, S. split; reflexivity.
Qed.

End Offline.

Ltac offline_auto :=
  repeat first
    [ apply offline_ret | apply offline_throw | apply offline_Date_now
    | apply offline_random | apply offline_console_error
    | apply offline_enqueue | apply offline_member | apply offline_template
    | apply offline_array_map; intros ?
    | apply offline_if
    | apply offline_bind; [|intros ?] ].

Section Requests.
Import Home.
Implicit Types (o : Oracle) (w : World Update) (st : State).

Lemma offline_stampEvent e : offline (stampEvent e).
Proof. unfold stampEvent. offline_auto. Qed.

Lemma offline_assistantMessage m : offline (assistantMessage m).
Proof. unfold assistantMessage, new_Date. offline_auto. Qed.

Lemma offline_after_answer st content data :
  offline (if negb (truthy data) then fallback content else reconcile st data).
Proof.
  unfold fallback, reconcile, new_Date.
  repeat first [ apply offline_stampEvent | apply offline_assistantMessage
               | progress offline_auto ].
Qed.

Lemma offline_after_bootstrap custInfo data :
  offline (if truthy data then seed custInfo data else ret tt).
Proof.
  unfold seed, new_Date.
  repeat first [ apply offline_stampEvent | apply offline_assistantMessage
               | progress offline_auto ].
Qed.

Lemma send_requests st content o w :
  let r := run (handleSendMessage st content) o w st in
  calls (world_of r) = S (calls w) /\
  sent (world_of r) =
  sent w ++ [mkRequest POST "/chat"
               (Some (JObj (Api.chat_body
                              content
                              (js_coalesce (conversationId st) (JStr ""))
                              (Some (accountNumber st)))))].
Proof.
  intros r. subst r. unfold run, world_of. cbn [fst snd flush calls sent].
  unfold handleSendMessage.
  rewrite bind_Date_now. cbv beta. rewrite bind_new_Date. cbv beta zeta.
  rewrite !bind_enqueue. unfold sendTurn.
  match goal with
  | |- context [bind _ ?k o ?w2] =>
      apply (one_request_then_offline
               content (js_coalesce (conversationId st) (JStr ""))
               (Some (accountNumber st)) k o w2)
  end.
  intros a. apply offline_after_answer.
Qed.

(** X9.  A send makes exactly one request, whatever comes back (there is no
    retry): a POST to [/chat] whose body has the conversation id of the
    render (the empty string while it is [null]), the text of the message,
    and the account number when it is not empty.  A series of sends makes as
    many requests as there are sends. *)
Theorem sends_make_one_request_each o :
  (forall st content w,
      sent (world_of (run (handleSendMessage st content) o w st)) =
      sent w ++ [mkRequest POST "/chat"
                   (Some (JObj (Api.chat_body
                                  content
                                  (js_coalesce (conversationId st) (JStr ""))
                                  (Some (accountNumber st)))))]) /\
  (forall contents w st,
      calls (fst (sendAll o contents w st)) = calls w + List.length contents /\
      List.length (sent (fst (sendAll o contents w st)))
      = List.length (sent w) + List.length contents).
Proof.
  split.
  - intros st content w. apply send_requests.
  - induction contents as [|c contents IH]; intros w st.
    + cbn. split; lia.
    + cbn [sendAll List.length].
      destruct (send_requests st c o w) as (C & S).
      destruct (IH (world_of (run (handleSendMessage st c) o w st))
                   (state_of (run (handleSendMessage st c) o w st)))
        as (C' & S').
      rewrite C', S', C, S, List.length_app. cbn [List.length]. split; lia.
Qed.

End Requests.

(* ================================================================= *)
(** ** Further properties of login *)

Section MoreLogin.
Import Home.
Implicit Types (o : Oracle) (w : World Update) (st : State).

Lemma login_rest_keeps {X} (f : State -> X) acc custInfo :
  (forall u s,
      match u with
      | SetIsLoggedIn _ | SetCustomerInfo _ | SetAccountNumber _ => True
      | _ => f (apply u s) = f s
      end) ->
  keeps f (bind (Api.callChatAPI "" (JStr "") (Some acc))
                (fun data => if truthy data then seed custInfo data
                             else ret tt)).
Proof.
  intros F. change (preserves (fun s s' => f s' = f s)
                              (bind (Api.callChatAPI "" (JStr "") (Some acc))
                                    (fun data => if truthy data
                                                 then seed custInfo data
                                                 else ret tt))).
  unfold seed.
  preserves_with (fun s : State => eq_refl (f s))
                 (fun (s s' s'' : State) (E1 : f s' = f s)
                      (E2 : f s'' = f s') => eq_trans E2 E1)
                 fail
                 ltac:(intros ?;
                       match goal with
                       | |- f (apply ?u ?s) = f ?s => exact (F u s)
                       end).
Qed.

(** X10.  A login records the account before it asks for the conversation:
    whatever the bootstrap call brings, and also when the handler throws on
    it, the session is logged in with the customer record and the account
    number given, and exactly one request was made, the bootstrap form of
    the chat call (empty message, empty conversation id, the account
    number). *)
Theorem login_records_account acc custInfo o w st :
  let r := run (handleLogin acc custInfo) o w st in
  isLoggedIn (state_of r) = true /\
  customerInfo (state_of r) = custInfo /\
  accountNumber (state_of r) = acc /\
  calls (world_of r) = S (calls w) /\
  sent (world_of r) =
  sent w ++ [mkRequest POST "/chat"
               (Some (JObj (Api.chat_body "" (JStr "") (Some acc))))].
Proof.
  intros r. subst r. unfold run, state_of, world_of. cbn [fst snd].
  unfold handleLogin. rewrite !bind_enqueue.
  split; [|split; [|split]].
  - rewrite (keeps_commit isLoggedIn)
      by (apply login_rest_keeps; intros [] ?; exact I || reflexivity).
    reflexivity.
  - rewrite (keeps_commit customerInfo)
      by (apply login_rest_keeps; intros [] ?; exact I || reflexivity).
    reflexivity.
  - rewrite (keeps_commit accountNumber)
      by (apply login_rest_keeps; intros [] ?; exact I || reflexivity).
    reflexivity.
  - match goal with
    | |- context [bind _ ?k o ?w2] =>
        apply (one_request_then_offline "" (JStr "") (Some acc) k o w2)
    end.
    intros a. apply offline_after_bootstrap.
Qed.

Lemma callChatAPI_queue {U} message cid acc o (w : World U) :
  queue (snd (Api.callChatAPI message cid acc o w)) = queue w.
Proof.
  rewrite callChatAPI_eq. simpl.
  destruct (network o (calls w)) as [|s js]; [reflexivity|].
  destruct (ok s); reflexivity.
Qed.

(** X11.  A bootstrap call that brings no data is passed over in silence: the
    login ends normally, logged in with the account, and every slice of the
    conversation (id, transcript, trace, roster, current agent, guardrails,
    context) is what it was; no message tells the customer. *)
Theorem login_without_data_is_silent acc custInfo o w st data :
  fst (Api.callChatAPI "" (JStr "") (Some acc) o (flush w)) = Normal data ->
  truthy data = false ->
  let r := run (handleLogin acc custInfo) o w st in
  outcome r = Normal tt /\
  state_of r =
  mkState (messages st) (events st) (agents st) (currentAgent st)
          (guardrails st) (context st) (conversationId st) (isLoading st)
          true custInfo acc.
Proof.
  intros H F r. subst r. unfold run, state_of, outcome. cbn [fst snd].
  unfold handleLogin. rewrite !bind_enqueue.
  match goal with
  | |- context [bind (Api.callChatAPI ?m ?c ?a) _ o ?w2] =>
      pose proof (callChatAPI_result m c a o (flush w) w2 eq_refl) as R;
      pose proof (callChatAPI_queue m c a o w2) as Q;
      destruct (Api.callChatAPI m c a o w2) as [res w3] eqn:E
  end.
  rewrite H in R. cbn [fst snd] in R, Q. subst res.
  rewrite (bind_normal _ _ _ _ _ _ E), F. cbn [ret fst snd].
  rewrite Q. split; reflexivity.
Qed.

Lemma login_without_data_is_silent_witness :
  messages
    (state_of (run (handleLogin "CUST001" (JObj []))
                   (answering (HttpResponse 500 None)) start initial))
  = [].
Proof.
  exact (f_equal messages
           (proj2 (login_without_data_is_silent
                     "CUST001" (JObj []) (answering (HttpResponse 500 None))
                     start initial JNull eq_refl eq_refl))).
Defined.

(** X12.  A login that is answered replaces the conversation: the id and the
    current agent are those of the response as they come ([undefined] when
    it has none), the roster and the guardrails are those of the response or
    the empty array, and the event trace consists of the events of the
    response alone, one by one and in their order, each with its own
    properties and its own or a fresh [timestamp]; the trace before the
    login is dropped. *)
Theorem login_seeds_the_store acc custInfo o w st data :
  fst (Api.callChatAPI "" (JStr "") (Some acc) o (flush w)) = Normal data ->
  truthy data = true ->
  events_ok data = true ->
  let st' := state_of (run (handleLogin acc custInfo) o w st) in
  conversationId st' = prop "conversation_id" data /\
  currentAgent st' = prop "current_agent" data /\
  agents st' = (if truthy (prop "agents" data) then prop "agents" data
                else JArr []) /\
  guardrails st' = (if truthy (prop "guardrails" data)
                    then prop "guardrails" data else JArr []) /\
  List.length (events st') = List.length (response_events data) /\
  Forall2 (stamped o (ticks w)) (response_events data) (events st').
Proof.
  intros H T Hev st'. subst st'.
  destruct (login_slices acc custInfo o w st data H T Hev)
    as (evs & F & Ee & Ec & Ea & _ & Eg & Er & _).
  rewrite Ee, Ec, Ea, Eg, Er. repeat split.
  - symmetry. eapply Forall2_length. exact F.
  - exact F.
Qed.

Lemma login_seeds_the_store_witness :
  let data := JObj [("conversation_id", JStr "c1");
                    ("events", JArr [JObj [("type", JStr "handoff")]])] in
  let st := mkState [] [JObj [("type", JStr "old"); ("timestamp", JNum 1)]]
                    (JArr [JNull]) (JStr "x") (JArr []) (JObj []) JNull
                    false false JNull "" in
  agents
    (state_of (run (handleLogin "CUST001" (JObj []))
                   (answering (HttpResponse 200 (Some data))) start st))
  = JArr [].
Proof.
  intros data st.
  exact (proj1 (proj2 (proj2
           (login_seeds_the_store
              "CUST001" (JObj []) (answering (HttpResponse 200 (Some data)))
              start st data eq_refl eq_refl eq_refl)))).
Defined.

End MoreLogin.

Section LoginWithoutCustomer.
Import Home.
Implicit Types (o : Oracle) (w : World Update) (st : State).

Lemma bind_stops {U A B} (m : M U A) (k : A -> M U B) o (w0 w1 : World U) e :
  m o w0 = (Throw e, w1) -> bind m k o w0 = (Throw e, w1).
Proof. unfold bind. intros ->. reflexivity. Qed.

(** X13.  A login whose customer record has no [customer] (or is [null]) throws
    when it builds the welcome: the conversation has been seeded by then,
    the transcript holds the messages of the response when it carried an
    array of them and is untouched otherwise, and no welcome is added. *)
Theorem login_without_customer_throws acc custInfo o w st data :
  fst (Api.callChatAPI "" (JStr "") (Some acc) o (flush w)) = Normal data ->
  truthy data = true ->
  events_ok data = true ->
  initial_messages_ok data = true ->
  nullish custInfo || nullish (prop "customer" custInfo) = true ->
  let r := run (handleLogin acc custInfo) o w st in
  exists msgs e,
    Forall2 (response_of o) (response_messages data) msgs /\
    outcome r = Throw e /\
    messages (state_of r) =
      (if isArray (prop "messages" data) then msgs else messages st) /\
    conversationId (state_of r) = prop "conversation_id" data /\
    isLoggedIn (state_of r) = true.
Proof.
  intros H T Hev Hm Hc r. subst r.
  destruct (handleLogin_answer acc custInfo o w data H T)
    as (w' & E & Q & _).
  unfold run, state_of, outcome. cbn [fst snd]. rewrite E. clear E.
  unfold seed. rewrite !bind_enqueue.
  match goal with
  | |- context [bind (array_map _ stampEvent) ?k o ?w1] =>
      destruct (initial_events_stage data k o w1 Hev)
        as (evs & w2 & _ & E & Q2 & _)
  end.
  cbv beta in E. rewrite E. clear E. rewrite !bind_enqueue.
  match goal with
  | |- context [bind (if isArray _ then _ else _) ?k o ?w5] =>
      destruct (initial_messages_stage data k o w5 Hm)
        as (msgs & w6 & Fm & E & Q6)
  end.
  cbv beta in E. rewrite E. clear E.
  rewrite bind_Date_now. cbv beta.
  assert (Th : exists e,
             forall B (k : JsValue -> M Update B) w7,
               bind (member custInfo "customer")
                    (fun customer => bind (member customer "name") k) o w7
               = (Throw e, w7)).
  { unfold member. destruct (nullish custInfo) eqn:Nc.
    - eexists. intros B k w7. reflexivity.
    - cbn [orb] in Hc. eexists. intros B k w7. cbn [bind ret].
      unfold bind. cbn. rewrite Hc. reflexivity. }
  destruct Th as (e & Th). exists msgs, e. split; [exact Fm|].
  rewrite Th. cbn [fst snd queue tick]. rewrite Q6. cbn [queue push].
  rewrite Q2. cbn [queue push]. rewrite Q.
  split; [reflexivity|].
  destruct (isArray (prop "messages" data)); repeat split.
Qed.

Lemma login_without_customer_throws_witness :
  let data := JObj [("conversation_id", JStr "c1");
                    ("messages", JArr [JObj [("content", JStr "Hi")]])] in
  let o := answering (HttpResponse 200 (Some data)) in
  exists msgs e,
    Forall2 (response_of o) (response_messages data) msgs /\
    outcome (run (handleLogin "CUST001" (JObj [])) o start initial) = Throw e /\
    messages (state_of (run (handleLogin "CUST001" (JObj [])) o start initial))
    = (if isArray (prop "messages" data) then msgs else messages initial) /\
    conversationId
      (state_of (run (handleLogin "CUST001" (JObj [])) o start initial))
    = prop "conversation_id" data /\
    isLoggedIn
      (state_of (run (handleLogin "CUST001" (JObj [])) o start initial))
    = true.
Proof.
  intros data o.
  exact (login_without_customer_throws
           "CUST001" (JObj []) o start initial data
           eq_refl eq_refl eq_refl eq_refl eq_refl).
Defined.

End LoginWithoutCustomer.

(* ================================================================= *)
(** ** Further properties of a send *)

Section MoreSends.
Import Home.
Implicit Types (o : Oracle) (w : World Update) (st : State).

Lemma response_of_fields o ms msgs :
  Forall2 (response_of o) ms msgs ->
  map content msgs = map (prop "content") ms /\
  map agent msgs = map (fun m => Some (prop "agent" m)) ms /\
  Forall (fun m => role m = Assistant) msgs.
Proof.
  induction 1 as [|m r ms rs (C & A & Ro & _) _ (IC & IA & IR)]; simpl.
  - repeat split. constructor.
  - rewrite C, A, IC, IA. repeat split. constructor; assumption.
Qed.

(** X14.  A send that is answered with a response that can be walked ends
    normally with the pending flag cleared; the transcript has grown by the
    user's message followed by one assistant message per entry of the
    response's [messages], in their order, each with the [content] and the
    [agent] of its entry. *)
Theorem answered_send_extends_transcript st content o w data :
  fst (sendTurn st content o (flush w)) = Normal data ->
  truthy data = true ->
  events_ok data = true ->
  messages_ok data = true ->
  let r := run (handleSendMessage st content) o w st in
  outcome r = Normal tt /\
  isLoading (state_of r) = false /\
  exists msgs,
    messages (state_of r) = messages st ++ userMsg o (ticks w) content :: msgs /\
    map Home.content msgs = map (prop "content") (response_messages data) /\
    map agent msgs
    = map (fun m => Some (prop "agent" m)) (response_messages data) /\
    Forall (fun m => role m = Assistant) msgs /\
    List.length (messages (state_of r))
    = List.length (messages st) + 1
      + List.length (response_messages data).
Proof.
  intros H T Hev Hm r. subst r.
  destruct (send_slices st content o w data H T Hev)
    as (evs & _ & _ & _ & _ & Full).
  destruct (Full Hm) as (msgs & Fm & N & E & L).
  split; [exact N|]. split; [exact L|]. exists msgs.
  destruct (response_of_fields o _ _ Fm) as (C & A & Ro).
  split; [exact E|]. split; [exact C|]. split; [exact A|].
  split; [exact Ro|].
  rewrite E, List.length_app. cbn [List.length].
  rewrite (Forall2_length Fm). lia.
Qed.

Lemma answered_send_extends_transcript_witness :
  let data :=
    JObj [("messages",
           JArr [JObj [("content", JStr "One")];
                 JObj [("content", JStr "Two"); ("agent", JStr "FAQ Agent")]])] in
  let o := answering (HttpResponse 200 (Some data)) in
  isLoading (state_of (run (handleSendMessage initial "hi") o start initial))
  = false.
Proof.
  intros data o.
  exact (proj1 (proj2 (answered_send_extends_transcript
                         initial "hi" o start data
                         eq_refl eq_refl eq_refl eq_refl))).
Defined.

Lemma no_data_answer st content o w :
  no_data (network o (calls w)) = true ->
  exists data,
    fst (sendTurn st content o (flush w)) = Normal data /\ truthy data = false.
Proof.
  intros N. unfold sendTurn. rewrite callChatAPI_eq. cbn [flush calls].
  unfold no_data in N. simpl.
  destruct (network o (calls w)) as [|status js]; simpl.
  - exists JNull. split; reflexivity.
  - destruct (ok status); simpl.
    + destruct js as [v|]; [|discriminate N]. exists v. simpl.
      apply negb_true_iff in N. split; [reflexivity|exact N].
    + exists JNull. split; reflexivity.
Qed.

(** X15.  What counts as a failed turn.  When the request finds no connection,
    or is answered with a status outside 200-299, or with an ok status and
    a body that is [null], [false], [0] or [""], the send ends normally
    with the user's message and the one system message in the transcript,
    the pending flag cleared, and nothing else changed. *)
Theorem failed_turn_outcomes st content o w :
  no_data (network o (calls w)) = true ->
  let r := run (handleSendMessage st content) o w st in
  outcome r = Normal tt /\
  state_of r =
  mkState (messages st
             ++ [userMsg o (ticks w) content; systemMsg o (2 + ticks w)])
          (events st) (agents st) (currentAgent st) (guardrails st)
          (context st) (conversationId st) false (isLoggedIn st)
          (customerInfo st) (accountNumber st).
Proof.
  intros N. destruct (no_data_answer st content o w N) as (data & H & F).
  exact (failed_send_state st content o w data H F).
Qed.

Lemma failed_turn_outcomes_witness :
  isLoading
    (state_of (run (handleSendMessage initial "hi")
                   (answering (HttpResponse 200 (Some (JBool false))))
                   start initial))
  = false.
Proof.
  exact (f_equal isLoading
           (proj2 (failed_turn_outcomes
                     initial "hi"
                     (answering (HttpResponse 200 (Some (JBool false))))
                     start eq_refl))).
Defined.

(** The handler of a send up to the transport call. *)
Lemma handleSendMessage_call st content o w :
  handleSendMessage st content o (flush w) =
  bind (sendTurn st content)
       (fun data => if negb (truthy data) then fallback content
                    else reconcile st data)
       o (push (SetIsLoading true)
               (push (AppendMessages [userMsg o (ticks w) content])
                     (tick (tick (flush w))))).
Proof. reflexivity. Qed.

(** X16.  A body that does not parse leaves the turn pending.  When the chat
    endpoint answers with an ok status and a body that is not JSON, the
    handler throws: the user's message is in the transcript, no system
    message follows it, and the pending flag stays set. *)
Theorem unparsable_answer_leaves_turn_pending st content o w status :
  network o (calls w) = HttpResponse status None ->
  ok status = true ->
  let r := run (handleSendMessage st content) o w st in
  (exists e, outcome r = Throw e) /\
  state_of r =
  mkState (messages st ++ [userMsg o (ticks w) content])
          (events st) (agents st) (currentAgent st) (guardrails st)
          (context st) (conversationId st) true (isLoggedIn st)
          (customerInfo st) (accountNumber st).
Proof.
  intros N K r. subst r. unfold run, state_of, outcome. cbn [fst snd].
  rewrite handleSendMessage_call.
  erewrite bind_stops.
  2:{ unfold sendTurn. rewrite callChatAPI_eq. cbn [calls push tick flush].
      rewrite N, K. reflexivity. }
  cbn [fst snd]. split; [eexists; reflexivity|].
  destruct st; reflexivity.
Qed.

Lemma unparsable_answer_leaves_turn_pending_witness :
  isLoading
    (state_of (run (handleSendMessage initial "hi")
                   (answering (HttpResponse 200 None)) start initial))
  = true.
Proof.
  exact (f_equal isLoading
           (proj2 (unparsable_answer_leaves_turn_pending
                     initial "hi" (answering (HttpResponse 200 None))
                     start 200%Z eq_refl eq_refl))).
Defined.

Lemma mapM_stampEvent_stops es :
  forall o w,
    no_nullish es = false ->
    exists e w', mapM stampEvent es o w = (Throw e, w') /\ queue w' = queue w.
Proof.
  induction es as [|x es IH]; intros o w N; [discriminate N|].
  simpl in N. destruct (nullish x) eqn:Nx.
  - exists (TypeError ("Cannot read properties of " ++ toString x)%string), w.
    split; [|reflexivity]. simpl. apply bind_stops.
    unfold stampEvent. apply bind_stops. unfold member. rewrite Nx.
    reflexivity.
  - simpl in N.
    destruct (stampEvent_ok x o w Nx) as (x' & w1 & E1 & Q1 & _).
    destruct (IH o w1 N) as (e & w2 & E2 & Q2).
    exists e, w2. split; [|congruence]. simpl.
    rewrite (bind_normal _ _ _ _ _ _ E1). apply bind_stops.
    exact E2.
Qed.

(** X17.  A response whose events cannot be walked is folded in by half.  The
    handler throws in the loop over the events: by then the current agent
    and the context are those of the response (and the conversation id, if
    none was known), while the event trace, the roster and the guardrails
    are the old ones, no assistant message is added, and the pending flag
    stays set. *)
Theorem unwalkable_events_stop_the_send st content o w data :
  fst (sendTurn st content o (flush w)) = Normal data ->
  truthy data = true ->
  events_unwalkable data = true ->
  let r := run (handleSendMessage st content) o w st in
  (exists e, outcome r = Throw e) /\
  state_of r =
  mkState (messages st ++ [userMsg o (ticks w) content])
          (events st) (agents st)
          (js_or (prop "current_agent" data) (JStr ""))
          (guardrails st)
          (js_or (prop "context" data) (JObj []))
          (if truthy (conversationId st) then conversationId st
           else js_or (prop "conversation_id" data) JNull)
          true (isLoggedIn st) (customerInfo st) (accountNumber st).
Proof.
  intros H T Un r. subst r.
  destruct (send_reconciles _ _ _ _ _ H T) as (w' & E & Q & _).
  unfold run, state_of, outcome. cbn [fst snd]. rewrite E. clear E.
  unfold reconcile. rewrite bind_if_enqueue, !bind_enqueue.
  unfold events_unwalkable, events_ok in Un. apply negb_true_iff in Un.
  assert (Tv : truthy (prop "events" data) = true).
  { destruct (prop "events" data); try reflexivity;
      apply negb_false_iff in Un; exact Un. }
  rewrite Tv.
  match goal with
  | |- context [bind (bind (array_map _ stampEvent) ?k1) ?k2 o ?w1] =>
      assert (Th : exists e w2,
                 array_map (prop "events" data) stampEvent o w1 = (Throw e, w2)
                 /\ queue w2 = queue w1)
  end.
  { destruct (prop "events" data) as [| |b|n|s|es|ps];
      try (eexists; eexists; split; reflexivity).
    apply mapM_stampEvent_stops. exact Un. }
  destruct Th as (e & w2 & Th & Q2).
  rewrite bind_assoc. erewrite bind_stops by exact Th.
  cbn [fst snd]. split; [eexists; reflexivity|].
  rewrite Q2. cbn [queue push]. rewrite queue_if_push, Q.
  destruct st as [ms es ags cur gs ctx cid ld lg ci ac].
  cbn [conversationId]. destruct (truthy cid); reflexivity.
Qed.

Lemma unwalkable_events_stop_the_send_witness :
  let data := JObj [("current_agent", JStr "FAQ Agent");
                    ("events", JArr [JNull]);
                    ("agents", JArr [JObj [("name", JStr "FAQ Agent")]])] in
  agents
    (state_of (run (handleSendMessage initial "hi")
                   (answering (HttpResponse 200 (Some data))) start initial))
  = JArr [].
Proof.
  intros data.
  exact (f_equal agents
           (proj2 (unwalkable_events_stop_the_send
                     initial "hi" (answering (HttpResponse 200 (Some data)))
                     start data eq_refl eq_refl eq_refl))).
Defined.

End MoreSends.

(* ================================================================= *)
(** ** The login form *)

Section LoginForm.
Import CustomerLogin.

(** The white space of [trim] is the one of JavaScript, not of ASCII alone:
    tabs and spaces around an account number go, and an account number made
    of no-break and ideographic spaces is blank. *)
Lemma trim_examples :
  trim (String (ascii_of_nat 9) " CUST001  ") = "CUST001" /\
  trim unicode_blank = "" /\
  trim "CUST 001" = "CUST 001".
Proof. repeat split. Qed.

(** X18.  A blank account number (empty, or made of white space, ASCII or
    not) stops the login at once: the form shows the request to enter one,
    no request is made, [onLogin] is not called and the loading flag is not
    touched. *)
Theorem blank_account_number_makes_no_request (st : State) (o : Oracle)
        (w : World Update) :
  (trim (accountNumber st) =? "")%string = true ->
  let r := handleLogin st o w in
  fst r = Normal tt /\
  calls (snd r) = calls w /\ sent (snd r) = sent w /\
  queue (snd r) = queue w ++ [SetError enter_text] /\
  after o st = (mkState (accountNumber st) (isLoading st) enter_text, []).
Proof.
  intros B r. subst r. unfold after, handleLogin, truthy. rewrite B.
  cbn. repeat split.
Qed.

Lemma blank_account_number_makes_no_request_witness :
  after (answering (HttpResponse 200 (Some JNull)))
        (mkState unicode_blank true "")
  = (mkState unicode_blank true enter_text, []).
Proof.
  exact (proj2 (proj2 (proj2 (proj2
           (blank_account_number_makes_no_request
              (mkState unicode_blank true "")
              (answering (HttpResponse 200 (Some JNull))) start eq_refl))))).
Defined.

(** X19.  A login with an account number that is not blank never throws, makes
    exactly one request, the GET of [/customer/<accountNumber>], and ends
    with the loading flag cleared.  [onLogin] is called, once and with the
    account number and the parsed body, exactly when the status is ok and
    the body parses; otherwise the form shows the "not found" text for the
    status 404, the "failed to load" text for every other status that is
    not ok, and the "network" text when there is no connection or the body
    does not parse. *)
Theorem customer_lookup_outcomes (st : State) (o : Oracle) :
  (trim (accountNumber st) =? "")%string = false ->
  let r := handleLogin st o start in
  fst r = Normal tt /\
  sent (snd r) =
  [mkRequest GET ("/customer/" ++ accountNumber st)%string None] /\
  after o st =
  match network o 0 with
  | NetworkFailure => (mkState (accountNumber st) false network_text, [])
  | HttpResponse status js =>
      if ok status then
        match js with
        | Some customerData =>
            (mkState (accountNumber st) false "",
             [(accountNumber st, customerData)])
        | None => (mkState (accountNumber st) false network_text, [])
        end
      else
        (mkState (accountNumber st) false
                 (if (status =? 404)%Z then not_found_text else failed_text),
         [])
  end.
Proof.
  intros B r. subst r. unfold after, handleLogin, truthy. rewrite B.
  cbn [negb]. unfold bind, try_finally, try_catch, fetch, enqueue, await.
  cbn [start calls push called fst snd].
  destruct (network o 0) as [|status js]; cbn.
  - repeat split.
  - destruct (ok status); cbn.
    + destruct js; cbn; repeat split.
    + destruct (status =? 404)%Z; cbn; repeat split.
Qed.

Lemma customer_lookup_outcomes_witness :
  after (answering (HttpResponse 200 (Some (JObj [("customer", JNull)]))))
        (mkState "CUST001" false "")
  = (mkState "CUST001" false "", [("CUST001", JObj [("customer", JNull)])]).
Proof.
  exact (proj2 (proj2
           (customer_lookup_outcomes
              (mkState "CUST001" false "")
              (answering (HttpResponse 200 (Some (JObj [("customer", JNull)]))))
              eq_refl))).
Defined.

End LoginForm.

(* ================================================================= *)
(** ** The runner output of the agent panel *)

Section RunnerOutput.
Import Home.
Implicit Types (o : Oracle) (w : World Update) (st : State).

Lemma well_stamped_not_nullish e : well_stamped e = true -> nullish e = false.
Proof. destruct e; simpl; intros H; try reflexivity; discriminate H. Qed.

Lemma runnerEvents_stamped l :
  forallb well_stamped l = true ->
  AgentPanel.runnerEvents l =
  Normal (filter (fun e => AgentPanel.differs_from (prop "type" e) "message") l).
Proof.
  induction l as [|e l IH]; simpl; intros H; [reflexivity|].
  apply andb_true_iff in H. destruct H as (He & Hl).
  rewrite (well_stamped_not_nullish e He), (IH Hl). reflexivity.
Qed.

(** X20.  The runner output under sends.  On a trace of well stamped events the
    filter of the panel does not throw; after any series of sends it still
    does not, what it showed before is a prefix of what it shows then, and
    no event shown has the type "message". *)
Theorem runner_output_grows o contents w st :
  all_stamped st ->
  exists shown more,
    AgentPanel.runnerEvents (events st) = Normal shown /\
    AgentPanel.runnerEvents (events (snd (sendAll o contents w st)))
    = Normal (shown ++ more) /\
    Forall (fun e => prop "type" e <> JStr "message") (shown ++ more).
Proof.
  intros H.
  pose proof (preserves_sendAll stamping stamping_refl stamping_trans o
                contents handleSendMessage_stamping w st H) as H'.
  destruct (preserves_sendAll grows grows_refl grows_trans o contents
              handleSendMessage_grows w st) as (_ & (l & E)).
  unfold all_stamped in H, H'.
  rewrite (runnerEvents_stamped _ H), (runnerEvents_stamped _ H'), E.
  rewrite filter_app. eexists. eexists.
  split; [reflexivity|]. split; [reflexivity|].
  rewrite <- filter_app. apply Forall_forall. intros e In.
  apply filter_In in In. destruct In as (_ & D). intros Eq.
  rewrite Eq in D. discriminate D.
Qed.

Lemma runner_output_grows_witness :
  let data :=
    JObj [("events", JArr [JObj [("type", JStr "message")];
                           JObj [("type", JStr "handoff")]])] in
  let o := answering (HttpResponse 200 (Some data)) in
  exists shown more,
    AgentPanel.runnerEvents (events initial) = Normal shown /\
    AgentPanel.runnerEvents (events (snd (sendAll o ["hi"] start initial)))
    = Normal (shown ++ more) /\
    Forall (fun e => prop "type" e <> JStr "message") (shown ++ more).
Proof.
  intros data o. exact (runner_output_grows o ["hi"] start initial eq_refl).
Defined.

End RunnerOutput.

(* ================================================================= *)
(** ** Booting the conversation without login *)

Section Boot.
Import Home.
Implicit Types (o : Oracle) (w : World Update) (st : State).

Lemma callChatAPI_no_data {U} message cid acc o (w0 : World U) :
  no_data (network o (calls w0)) = true ->
  exists data (w1 : World U),
    Api.callChatAPI message cid acc o w0 = (Normal data, w1) /\
    truthy data = false /\ queue w1 = queue w0 /\ ticks w1 = ticks w0.
Proof.
  intros N. rewrite callChatAPI_eq. unfold no_data in N. simpl.
  destruct (network o (calls w0)) as [|status js].
  - eexists. eexists. repeat split.
  - destruct (ok status).
    + destruct js as [v|]; [|discriminate N]. apply negb_true_iff in N.
      exists v. eexists. repeat split. exact N.
    + eexists. eexists. repeat split.
Qed.

(** X21.  A boot that gets no data replaces the transcript by one message of
    the agent "System" saying that the chat failed to load, and leaves every
    other slice as it was; it ends normally. *)
Theorem boot_without_data_shows_failure st o w :
  no_data (network o (calls w)) = true ->
  let r := run (HomeNoLogin.boot st) o w st in
  outcome r = Normal tt /\
  state_of r =
  mkState [mkMessage (string_of_Z (clock o (ticks w)))
                     (JStr HomeNoLogin.failed_text) Assistant
                     (Some (JStr "System")) (clock o (S (ticks w)))]
          (events st) (agents st) (currentAgent st) (guardrails st)
          (context st) (conversationId st) (isLoading st) (isLoggedIn st)
          (customerInfo st) (accountNumber st).
Proof.
  intros N r. subst r. unfold run, state_of, outcome. cbn [fst snd].
  unfold HomeNoLogin.boot.
  destruct (callChatAPI_no_data
              "" (js_coalesce (conversationId st) (JStr "")) None o (flush w) N)
    as (data & w1 & E & F & Q & T).
  rewrite (bind_normal _ _ _ _ _ _ E), F. cbn [negb].
  rewrite bind_console_error, bind_Date_now. cbv beta.
  rewrite bind_new_Date. cbv beta.
  cbn [enqueue fst snd queue push tick logged ticks]. rewrite Q, T.
  split; reflexivity.
Qed.

Lemma boot_without_data_shows_failure_witness :
  List.length
    (messages (state_of (run (HomeNoLogin.boot initial)
                             (answering NetworkFailure) start initial)))
  = 1.
Proof.
  exact (f_equal (fun s => List.length (messages s))
           (proj2 (boot_without_data_shows_failure
                     initial (answering NetworkFailure) start eq_refl))).
Defined.

Lemma stamped_is_well_stamped o lo e e' :
  stamped o lo e e' -> well_stamped e' = true.
Proof.
  intros (t & -> & Keep & Stamp). cbn [well_stamped].
  rewrite lookup_set_prop_same.
  destruct (nullish (prop "timestamp" e)) eqn:N.
  - destruct (Stamp eq_refl) as (k & _ & ->). reflexivity.
  - rewrite (Keep eq_refl), N. reflexivity.
Qed.

(** X22.  A boot that is answered gives every slice a value of its type: the
    conversation id of the response or [null], its current agent or the
    empty string, its context or the empty object, its roster and
    guardrails or the empty array, and as the trace the events of the
    response, one by one and in their order, each with its own properties
    and its own or a fresh [timestamp].  The request carries no account
    number. *)
Theorem boot_defaults_every_slice st o w data :
  fst (Api.callChatAPI "" (js_coalesce (conversationId st) (JStr "")) None
                       o (flush w)) = Normal data ->
  truthy data = true ->
  events_ok data = true ->
  let r := run (HomeNoLogin.boot st) o w st in
  conversationId (state_of r)
  = (if truthy (prop "conversation_id" data)
     then prop "conversation_id" data else JNull) /\
  currentAgent (state_of r)
  = (if truthy (prop "current_agent" data)
     then prop "current_agent" data else JStr "") /\
  context (state_of r)
  = (if truthy (prop "context" data) then prop "context" data else JObj []) /\
  agents (state_of r)
  = (if truthy (prop "agents" data) then prop "agents" data else JArr []) /\
  guardrails (state_of r)
  = (if truthy (prop "guardrails" data)
     then prop "guardrails" data else JArr []) /\
  List.length (events (state_of r)) = List.length (response_events data) /\
  all_stamped (state_of r) /\
  Forall2 (stamped o (ticks w)) (response_events data) (events (state_of r)) /\
  sent (world_of r) =
  sent w ++ [mkRequest POST "/chat"
               (Some (JObj [("conversation_id",
                             js_coalesce (conversationId st) (JStr ""));
                            ("message", JStr "")]))].
Proof.
  intros H T Hev r. subst r. unfold run, state_of, world_of. cbn [fst snd].
  assert (S : sent (snd (HomeNoLogin.boot st o (flush w))) =
              sent w ++ [mkRequest POST "/chat"
                           (Some (JObj [("conversation_id",
                                         js_coalesce (conversationId st)
                                                     (JStr ""));
                                        ("message", JStr "")]))]).
  { unfold HomeNoLogin.boot.
    match goal with
    | |- context [bind _ ?k o ?w0] =>
        apply (one_request_then_offline
                 "" (js_coalesce (conversationId st) (JStr "")) None k o w0)
    end.
    intros a. unfold new_Date.
    repeat first [ apply offline_stampEvent | apply offline_assistantMessage
                 | progress offline_auto ]. }
  cbn [flush sent] in S |- *. rewrite S. clear S.
  unfold HomeNoLogin.boot.
  pose proof (callChatAPI_truthy _ _ _ _ _ _ H T) as E.
  rewrite (bind_normal _ _ _ _ _ _ E), T. cbn [negb].
  rewrite !bind_enqueue.
  match goal with
  | |- context [bind (array_map _ stampEvent) ?k o ?w1] =>
      destruct (initial_events_stage data k o w1 Hev)
        as (evs & w2 & F & E2 & Q2 & _)
  end.
  cbv beta in E2. rewrite E2. rewrite !bind_enqueue.
  assert (K : forall X (f : State -> X),
             (forall l s, f (apply (SetMessages l) s) = f s) ->
             keeps f (if isArray (prop "messages" data)
                      then bind (array_map (prop "messages" data)
                                           assistantMessage)
                                (fun l => enqueue (SetMessages l))
                      else ret tt)).
  { intros X f Hf. apply keeps_if; [|apply keeps_ret].
    apply keeps_bind; [keeps_auto|]. intros l. apply keeps_enqueue.
    apply Hf. }
  assert (Ev : forallb well_stamped evs = true).
  { clear - F. induction F as [|e e' es es' S _ IH]; [reflexivity|].
    simpl. rewrite IH, andb_true_r. apply (stamped_is_well_stamped _ _ _ _ S). }
  repeat split.
  - rewrite (keeps_commit conversationId) by (apply K; reflexivity).
    cbn [queue push]. rewrite Q2. reflexivity.
  - rewrite (keeps_commit currentAgent) by (apply K; reflexivity).
    cbn [queue push]. rewrite Q2. reflexivity.
  - rewrite (keeps_commit context) by (apply K; reflexivity).
    cbn [queue push]. rewrite Q2. reflexivity.
  - rewrite (keeps_commit agents) by (apply K; reflexivity).
    cbn [queue push]. rewrite Q2. reflexivity.
  - rewrite (keeps_commit guardrails) by (apply K; reflexivity).
    cbn [queue push]. rewrite Q2. reflexivity.
  - rewrite (keeps_commit events) by (apply K; reflexivity).
    cbn [queue push]. rewrite Q2. cbn.
    symmetry. eapply Forall2_length. exact F.
  - unfold all_stamped.
    rewrite (keeps_commit events) by (apply K; reflexivity).
    cbn [queue push]. rewrite Q2. cbn. exact Ev.
  - rewrite (keeps_commit events) by (apply K; reflexivity).
    cbn [queue push]. rewrite Q2. cbn. exact F.
Qed.

Lemma boot_defaults_every_slice_witness :
  let data := JObj [("messages", JArr [])] in
  context
    (state_of (run (HomeNoLogin.boot initial)
                   (answering (HttpResponse 200 (Some data))) start initial))
  = JObj [].
Proof.
  intros data.
  exact (proj1 (proj2 (proj2
           (boot_defaults_every_slice
              initial (answering (HttpResponse 200 (Some data))) start data
              eq_refl eq_refl eq_refl)))).
Defined.

End Boot.
